(** * cassandrastore: a gorilla/sessions store backed by Cassandra

    Shallow embedding of [store.go] and proofs about the session
    lifecycle it implements: [NewCassandraStore], [New], [Save], and the
    two storage helpers [load] and [save].

    The Go code mutates three kinds of things, all of which are explicit
    here:
    - [sessions.Options] objects reached through pointers (the store's
      defaults and each session's own options) live in a heap, a
      [gmap loc Options];
    - the Cassandra cluster reached through [c.ClusterConfig] is a
      record with its rows, its injected faults and a log of every
      operation issued to it;
    - the process entropy source read by [securecookie.GenerateRandomKey],
      and the order in which the Go runtime walks a map, which
      [encoding/gob] follows when it writes one.
    A [*sessions.Session] and the [http.ResponseWriter] are threaded
    explicitly: an operation that mutates them returns the new value. *)

From Stdlib Require Import ZArith Ascii String List Lia.
From Stdlib.Strings Require Import Byte.
From stdpp Require Import base option gmap strings list fin_maps pretty.

Local Open Scope Z_scope.

(** ** Go [error] values *)

(** An [error] is compared by identity in [New]
    ([errLoad != gocql.ErrNotFound]).  [ErrNotFound] is the sentinel
    [gocql.ErrNotFound]; [Errorf] is a value freshly made by
    [fmt.Errorf]; [LibError] is any other value handed back by a library
    (gocql, encoding/gob, securecookie, net/http). *)
Inductive error : Type :=
| ErrNotFound
| Errorf (msg : string)
| LibError (msg : string).

(** The [Error()] method. *)
Definition Error (e : error) : string :=
  match e with
  | ErrNotFound => "not found"
  | Errorf msg => msg
  | LibError msg => msg
  end.

#[global] Instance error_eq_dec : EqDecision error.
Proof. solve_decision. Defined.

(** [fmt.Errorf("cassandrastore: %v", err.Error())] *)
Definition errPrefix : string := "cassandrastore: ".
Definition wrapErr (e : error) : error := Errorf (errPrefix +:+ Error e).

(** ** encoding/base32 and strings.TrimRight *)

Module base32.

(** The standard alphabet of RFC 4648 and its padding character. *)
Definition encodeStd : string := "ABCDEFGHIJKLMNOPQRSTUVWXYZ234567".
Definition StdPadding : ascii := "="%char.

Definition byteZ (b : byte) : Z := Z.of_N (Byte.to_N b).

(** [enc.encode[v & 31]] *)
Definition encodeChar (v : Z) : ascii :=
  match String.get (Z.to_nat (Z.land v 31)) encodeStd with
  | Some ch => ch
  | None => "A"%char
  end.

(** Shifts on a Go [byte] wrap at eight bits. *)
Definition shl8 (x n : Z) : Z := Z.land (Z.shiftl x n) 255.
Definition shr8 (x n : Z) : Z := Z.shiftr x n.

(** The [switch len(src)] with its fallthroughs: unpack up to five
    source bytes into eight 5-bit groups.  [n] is [min(len(src), 5)];
    the bytes beyond [n] are not read. *)
Definition unpack (n : nat) (s0 s1 s2 s3 s4 : Z) : list Z :=
  let ge k := (k <=? n)%nat in
  let b7 := if ge 5%nat then Z.land s4 31 else 0 in
  let b6 := if ge 5%nat then shr8 s4 5 else 0 in
  let b6 := if ge 4%nat then Z.lor b6 (Z.land (shl8 s3 3) 31) else b6 in
  let b5 := if ge 4%nat then Z.land (shr8 s3 2) 31 else 0 in
  let b4 := if ge 4%nat then shr8 s3 7 else 0 in
  let b4 := if ge 3%nat then Z.lor b4 (Z.land (shl8 s2 1) 31) else b4 in
  let b3 := if ge 3%nat then Z.land (shr8 s2 4) 31 else 0 in
  let b3 := if ge 2%nat then Z.lor b3 (Z.land (shl8 s1 4) 31) else b3 in
  let b2 := if ge 2%nat then Z.land (shr8 s1 1) 31 else 0 in
  let b1 := if ge 2%nat then Z.land (shr8 s1 6) 31 else 0 in
  let b1 := if ge 1%nat then Z.lor b1 (Z.land (shl8 s0 2) 31) else b1 in
  let b0 := if ge 1%nat then shr8 s0 3 else 0 in
  [b0; b1; b2; b3; b4; b5; b6; b7].

(** How many of the eight output characters of a quantum carry data
    when [n < 5] source bytes remain; the rest is padding. *)
Definition dataChars (n : nat) : nat :=
  match n with
  | 1 => 2 | 2 => 4 | 3 => 5 | 4 => 7 | _ => 8
  end%nat.

(** One output quantum: the eight encoded characters, the final ones
    overwritten by the padding character when the input ran short. *)
Definition quantum (n : nat) (s0 s1 s2 s3 s4 : Z) : list ascii :=
  let chars := map encodeChar (unpack n s0 s1 s2 s3 s4) in
  take (dataChars n) chars ++ replicate (8 - dataChars n) StdPadding.

Definition str (l : list ascii) : string := string_of_list_ascii l.

(** [base32.StdEncoding.EncodeToString] *)
Fixpoint EncodeToString (src : list byte) : string :=
  match src with
  | [] => ""
  | s0 :: [] =>
      str (quantum 1 (byteZ s0) 0 0 0 0)
  | s0 :: s1 :: [] =>
      str (quantum 2 (byteZ s0) (byteZ s1) 0 0 0)
  | s0 :: s1 :: s2 :: [] =>
      str (quantum 3 (byteZ s0) (byteZ s1) (byteZ s2) 0 0)
  | s0 :: s1 :: s2 :: s3 :: [] =>
      str (quantum 4 (byteZ s0) (byteZ s1) (byteZ s2) (byteZ s3) 0)
  | s0 :: s1 :: s2 :: s3 :: s4 :: rest =>
      str (quantum 5 (byteZ s0) (byteZ s1) (byteZ s2) (byteZ s3) (byteZ s4))
      +:+ EncodeToString rest
  end.

End base32.

Module strings.

Fixpoint ContainsRune (cutset : string) (ch : ascii) : bool :=
  match cutset with
  | EmptyString => false
  | String x rest => if decide (x = ch) then true else ContainsRune rest ch
  end.

(** [strings.TrimRight(s, cutset)]: [s] without its trailing
    characters that occur in [cutset]. *)
Fixpoint TrimRight (s cutset : string) : string :=
  match s with
  | EmptyString => EmptyString
  | String ch rest =>
      match TrimRight rest cutset with
      | EmptyString =>
          if ContainsRune cutset ch then EmptyString else String ch EmptyString
      | String _ _ as t => String ch t
      end
  end.

End strings.

(** ** Data model *)

(** Heap addresses of [sessions.Options] objects.  A Go pointer is
    [nil] ([None]) or an address. *)
Definition loc := positive.
Definition ptr := option loc.

Definition result (A : Type) : Type := (A + error)%type.

(** [sessions.Options] (gorilla/sessions): plain value fields only, so
    the struct copy [opts := *c.Options] copies all of it. *)
Record Options := mkOptions {
  Path : string;
  Domain : string;
  MaxAge : Z;
  Secure : bool;
  HttpOnly : bool
}.

(** [sessions.Session].  [Values] is Go's
    [map[interface{}]interface{}], here a finite map on strings;
    [s_Options] is the [Options *sessions.Options] field. *)
Record Session := mkSession {
  ID : string;
  Values : gmap string string;
  s_Options : ptr;
  IsNew : bool;
  Name : string
}.

(** [securecookie.Codec]: the interface with [Encode] and [Decode].
    The value is the session identifier, a string; [Decode] either
    yields the string it stores in [dst] or fails and leaves [dst] as
    it was. *)
Record Codec := mkCodec {
  Encode : string -> string -> result string;
  Decode : string -> string -> result string
}.

(** [CassandraStore].  [c_Options] is the [Options *sessions.Options]
    field; the [ClusterConfig] field designates the cluster of the
    world below. *)
Record CassandraStore := mkStore {
  Codecs : list Codec;
  c_Options : ptr;
  TableName : string
}.

(** [http.Request], reduced to the cookies it carries, in header
    order, as (name, value). *)
Record Request := mkRequest {
  Cookies : list (string * string)
}.

(** [Expires] of a cookie made by [sessions.NewCookie]: unset, the
    current time plus a number of seconds, or [time.Unix(1, 0)]. *)
Inductive Expiry : Type :=
| ExpiresUnset
| ExpiresNowPlus (seconds : Z)
| ExpiresUnix1.

(** [http.Cookie] *)
Record Cookie := mkCookie {
  ck_Name : string;
  ck_Value : string;
  ck_Path : string;
  ck_Domain : string;
  ck_Expires : Expiry;
  ck_MaxAge : Z;
  ck_Secure : bool;
  ck_HttpOnly : bool
}.

(** [http.ResponseWriter], reduced to the cookies handed to
    [http.SetCookie], oldest first. *)
Definition ResponseWriter := list Cookie.

(** What the store asks of the cluster, in order. *)
Inductive StorageOp : Type :=
| OpCreateSession
| OpQuery (cql : string) (id : string)
| OpExec (cql : string) (id : string) (vals : list byte) (ttl : Z)
| OpClose.

(** The Cassandra cluster: rows keyed by (table, id) holding the
    [values] blob and the TTL it was written with; a fault to inject
    into each kind of call; the log of the calls made.  An INSERT that
    reports an error may have been applied all the same (a write that
    timed out, say): [fault_applied] says whether it is. *)
Record Cluster := mkCluster {
  connect_fault : option error;
  scan_fault : option error;
  exec_fault : option error;
  fault_applied : bool;
  rows : gmap (string * string) (list byte * Z);
  oplog : list StorageOp
}.

(** [map_orders] holds the iteration orders the Go runtime will pick,
    one for each traversal of a map; order 0 once the list is used
    up. *)
Record World := mkWorld {
  heap : gmap loc Options;
  cluster : Cluster;
  entropy : list byte;
  map_orders : list nat
}.

Definition set_heap (h : gmap loc Options) (σ : World) : World :=
  mkWorld h (cluster σ) (entropy σ) (map_orders σ).
Definition set_cluster (cl : Cluster) (σ : World) : World :=
  mkWorld (heap σ) cl (entropy σ) (map_orders σ).
Definition set_entropy (e : list byte) (σ : World) : World :=
  mkWorld (heap σ) (cluster σ) e (map_orders σ).
Definition set_map_orders (os : list nat) (σ : World) : World :=
  mkWorld (heap σ) (cluster σ) (entropy σ) os.

Definition log_op (op : StorageOp) (cl : Cluster) : Cluster :=
  mkCluster (connect_fault cl) (scan_fault cl) (exec_fault cl)
            (fault_applied cl) (rows cl) (oplog cl ++ [op]).
Definition set_rows (rs : gmap (string * string) (list byte * Z)) (cl : Cluster)
  : Cluster :=
  mkCluster (connect_fault cl) (scan_fault cl) (exec_fault cl)
            (fault_applied cl) rs (oplog cl).

Definition setID (id : string) (s : Session) : Session :=
  mkSession id (Values s) (s_Options s) (IsNew s) (Name s).
Definition setValues (v : gmap string string) (s : Session) : Session :=
  mkSession (ID s) v (s_Options s) (IsNew s) (Name s).
Definition setOptions (p : ptr) (s : Session) : Session :=
  mkSession (ID s) (Values s) p (IsNew s) (Name s).
Definition setIsNew (b : bool) (s : Session) : Session :=
  mkSession (ID s) (Values s) (s_Options s) b (Name s).

(** ** The monad of the embedding: state passing over [World], with
    [Panic] for a nil pointer dereference. *)

Inductive Res (A : Type) : Type :=
| Done (a : A) (σ : World)
| Panic.
Arguments Done {A} a σ.
Arguments Panic {A}.

Definition M (A : Type) : Type := World -> Res A.

#[global] Instance M_ret : MRet M := fun A a σ => Done a σ.
#[global] Instance M_bind : MBind M := fun A B f m σ =>
  match m σ with
  | Done a σ' => f a σ'
  | Panic => Panic
  end.

(** What a pointer points to, if anything. *)
Definition read (σ : World) (p : ptr) : option Options :=
  l ← p; heap σ !! l.

(** [*p] *)
Definition deref (p : ptr) : M Options := fun σ =>
  match read σ p with
  | Some o => Done o σ
  | None => Panic
  end.

(** [&v] for a local [v] that escapes: a fresh heap object. *)
Definition alloc (o : Options) : M ptr := fun σ =>
  let l := fresh (dom (heap σ)) in
  Done (Some l) (set_heap (<[l := o]> (heap σ)) σ).

(** [*p = o]: what application code does when it changes a session's
    options in place. *)
Definition assign (p : ptr) (o : Options) : M unit := fun σ =>
  match p with
  | Some l =>
      match heap σ !! l with
      | Some _ => Done tt (set_heap (<[l := o]> (heap σ)) σ)
      | None => Panic
      end
  | None => Panic
  end.

(** ** The libraries the store calls *)

Module gocql.

(** [ClusterConfig.CreateSession] *)
Definition CreateSession : M (result unit) := fun σ =>
  let cl := log_op OpCreateSession (cluster σ) in
  match connect_fault cl with
  | Some e => Done (inr e) (set_cluster cl σ)
  | None => Done (inl tt) (set_cluster cl σ)
  end.

(** [db.Query(cql, id).Scan(&vals)] for a single-column, single-row
    read: the blob of the row, [ErrNotFound] when there is no row. *)
Definition Scan (table cql id : string) : M (result (list byte)) := fun σ =>
  let cl := log_op (OpQuery cql id) (cluster σ) in
  match scan_fault cl with
  | Some e => Done (inr e) (set_cluster cl σ)
  | None =>
      match rows cl !! (table, id) with
      | Some (vals, _) => Done (inl vals) (set_cluster cl σ)
      | None => Done (inr ErrNotFound) (set_cluster cl σ)
      end
  end.

(** [db.Query(cql, id, vals, ttl).Exec()] for the upsert.  When it
    reports an error the row is written or not, as the cluster has
    it. *)
Definition Exec (table cql id : string) (vals : list byte) (ttl : Z)
  : M (option error) := fun σ =>
  let cl := log_op (OpExec cql id vals ttl) (cluster σ) in
  let written := set_rows (<[(table, id) := (vals, ttl)]> (rows cl)) cl in
  match exec_fault cl with
  | Some e =>
      Done (Some e) (set_cluster (if fault_applied cl then written else cl) σ)
  | None => Done None (set_cluster written σ)
  end.

(** [db.Close()] *)
Definition Close : M unit := fun σ =>
  Done tt (set_cluster (log_op OpClose (cluster σ)) σ).

End gocql.

Module securecookie.

Definition errNoCodecs : error := LibError "securecookie: no codecs provided".

(** [MultiError.Error()] *)
Definition MultiErrorMsg (errs : list error) : string :=
  match errs with
  | [] => "(0 errors)"
  | [e] => Error e
  | [e; _] => Error e +:+ " (and 1 other error)"
  | e :: rest => Error e +:+ " (and " +:+ pretty (length rest) +:+ " other errors)"
  end.

Fixpoint encodeLoop (name value : string) (codecs : list Codec)
         (errors : list error) : result string :=
  match codecs with
  | [] => inr (LibError (MultiErrorMsg errors))
  | codec :: codecs' =>
      match Encode codec name value with
      | inl encoded => inl encoded
      | inr err => encodeLoop name value codecs' (errors ++ [err])
      end
  end.

(** [securecookie.EncodeMulti]: the first codec that encodes wins. *)
Definition EncodeMulti (name value : string) (codecs : list Codec)
  : result string :=
  match codecs with
  | [] => inr errNoCodecs
  | _ => encodeLoop name value codecs []
  end.

Fixpoint decodeLoop (name value : string) (codecs : list Codec)
         (errors : list error) : result string :=
  match codecs with
  | [] => inr (LibError (MultiErrorMsg errors))
  | codec :: codecs' =>
      match Decode codec name value with
      | inl dst => inl dst
      | inr err => decodeLoop name value codecs' (errors ++ [err])
      end
  end.

(** [securecookie.DecodeMulti]: the first codec that decodes wins. *)
Definition DecodeMulti (name value : string) (codecs : list Codec)
  : result string :=
  match codecs with
  | [] => inr errNoCodecs
  | _ => decodeLoop name value codecs []
  end.

(** [securecookie.GenerateRandomKey]: [length] bytes read from the
    entropy source, [nil] when the read falls short. *)
Definition GenerateRandomKey (length : nat) : M (list byte) := fun σ =>
  if decide (length ≤ List.length (entropy σ))%nat
  then Done (take length (entropy σ)) (set_entropy (drop length (entropy σ)) σ)
  else Done [] (set_entropy [] σ).

End securecookie.

Module http.

Definition ErrNoCookie : error := LibError "http: named cookie not present".

(** [r.Cookie(name)]: the first cookie of that name. *)
Fixpoint findCookie (name : string) (cs : list (string * string))
  : result string :=
  match cs with
  | [] => inr ErrNoCookie
  | (n, v) :: cs' => if decide (n = name) then inl v else findCookie name cs'
  end.

Definition Request_Cookie (r : Request) (name : string) : result string :=
  if decide (name = "") then inr ErrNoCookie
  else findCookie name (Cookies r).

(** [http.SetCookie(w, cookie)] *)
Definition SetCookie (w : ResponseWriter) (cookie : Cookie) : ResponseWriter :=
  (w ++ [cookie])%list.

End http.

Module sessions.

(** [sessions.NewSession(store, name)] *)
Definition NewSession (name : string) : Session :=
  mkSession "" ∅ None false name.

(** [sessions.NewCookie(name, value, options)] *)
Definition NewCookie (name value : string) (options : ptr) : M Cookie :=
  o ← deref options;
  mret (mkCookie name value (Path o) (Domain o)
          (if decide (0 < MaxAge o) then ExpiresNowPlus (MaxAge o)
           else if decide (MaxAge o < 0) then ExpiresUnix1
           else ExpiresUnset)
          (MaxAge o) (Secure o) (HttpOnly o)).

End sessions.

(** [encoding/gob] as the store uses it: [Encode] turns a payload into
    bytes or fails, writing the entries of the map in the order the
    runtime walks it this time, so that two encodings of one payload
    need not be the same bytes; [Decode] fills the map it is given a
    pointer to and reports an error, and what it leaves in the map on
    error is up to the library. *)
Class Gob := mkGob {
  gob_Encode : nat -> gmap string string -> result (list byte);
  gob_Decode : list byte -> gmap string string -> gmap string string * option error
}.

(** The order the runtime picks for the next traversal of a map. *)
Definition next_order (σ : World) : nat := hd 0%nat (map_orders σ).

Definition pick_order : M nat := fun σ =>
  Done (next_order σ) (set_map_orders (tl (map_orders σ)) σ).

(** ** store.go *)

Section store.

Context `{Gob}.
(** [securecookie.CodecsFromPairs] *)
Variable CodecsFromPairs : list (list byte) -> list Codec.

Definition selectCQL (table : string) : string :=
  "SELECT values FROM " +:+ table +:+ " WHERE id = ?".
Definition insertCQL (table : string) : string :=
  "INSERT INTO " +:+ table +:+ " (id, values) VALUES (?, ?) USING TTL ?".

Definition NewCassandraStore (tableName : string) (keypairs : list (list byte))
  : M (CassandraStore * option error) :=
  let tableName := if decide (tableName = "") then "sessions" else tableName in
  p ← alloc (mkOptions "/" "" 2592000 false false);
  mret (mkStore (CodecsFromPairs keypairs) p tableName, None).

(** [load]: returns the session (its [Values] are decoded into) and
    the error. *)
Definition load (c : CassandraStore) (s : Session) : M (Session * option error) :=
  db ← gocql.CreateSession;
  match db with
  | inr err => mret (s, Some (wrapErr err))
  | inl _ =>
      let q := selectCQL (TableName c) in
      vals ← gocql.Scan (TableName c) q (ID s);
      ret ← match vals with
            | inr err => mret (s, Some (wrapErr err))
            | inl vals =>
                let '(values, err) := gob_Decode vals (Values s) in
                mret (setValues values s, err)
            end;
      _ ← gocql.Close;
      mret ret
  end.

Definition save (c : CassandraStore) (s : Session) : M (option error) :=
  db ← gocql.CreateSession;
  match db with
  | inr err => mret (Some (wrapErr err))
  | inl _ =>
      ret ← (order ← pick_order;
             match gob_Encode order (Values s) with
             | inr err => mret (Some (wrapErr err))
             | inl buf =>
                 let q := insertCQL (TableName c) in
                 o ← deref (s_Options s);
                 gocql.Exec (TableName c) q (ID s) buf (MaxAge o)
             end);
      _ ← gocql.Close;
      mret ret
  end.

Definition New (c : CassandraStore) (r : Request) (name : string)
  : M (Session * option error) :=
  let s := sessions.NewSession name in
  opts ← deref (c_Options c);
  p ← alloc opts;
  let s := setOptions p s in
  let s := setIsNew true s in
  s ← match http.Request_Cookie r name with
      | inl cookie =>
          match securecookie.DecodeMulti name cookie (Codecs c) with
          | inl id =>
              '(s, errLoad) ← load c (setID id s);
              if decide (errLoad ≠ None ∧ errLoad ≠ Some ErrNotFound)
              then mret (setIsNew false s)
              else mret s
          | inr _ => mret s
          end
      | inr _ => mret s
      end;
  mret (s, None).

(** The block [if s.ID == "" { ... }] of [Save]. *)
Definition Save_identifier (s : Session) : M Session :=
  if decide (ID s = "") then
    k ← securecookie.GenerateRandomKey 32;
    mret (setID (strings.TrimRight (base32.EncodeToString k) "=") s)
  else mret s.

(** [Save] returns the error, the response writer and the session
    (whose [ID] it may have set). *)
Definition Save (c : CassandraStore) (r : Request) (w : ResponseWriter)
           (s : Session) : M (option error * ResponseWriter * Session) :=
  o ← deref (s_Options s);
  if decide (MaxAge o < 0) then
    cookie ← sessions.NewCookie (Name s) "" (s_Options s);
    mret (None, http.SetCookie w cookie, s)
  else
    s ← Save_identifier s;
    err ← save c s;
    match err with
    | Some err => mret (Some (wrapErr err), w, s)
    | None =>
        match securecookie.EncodeMulti (Name s) (ID s) (Codecs c) with
        | inr err => mret (Some (wrapErr err), w, s)
        | inl encoded =>
            cookie ← sessions.NewCookie (Name s) encoded (c_Options c);
            mret (None, http.SetCookie w cookie, s)
        end
    end.

End store.

(** ** Small concrete instances, used to run the model *)

Module standin.

(** A codec that tags a value with its key and the session name, and
    accepts only values carrying that tag.  Like securecookie it
    refuses to encode without a key. *)
Definition tag (key name : string) : string := key +:+ "|" +:+ name +:+ "|".

Definition tagEncode (key name value : string) : result string :=
  if decide (key = "") then inr (LibError "securecookie: hash key is not set")
  else inl (tag key name +:+ value).

Definition tagDecode (key name value : string) : result string :=
  let t := tag key name in
  if String.prefix t value
  then inl (String.substring (String.length t)
              (String.length value - String.length t) value)
  else inr (LibError "securecookie: the value is not valid").

Definition tagCodec (key : string) : Codec :=
  mkCodec (tagEncode key) (tagDecode key).

Definition codecsFromKeys (keypairs : list (list byte)) : list Codec :=
  map (fun k => tagCodec (string_of_list_byte k)) keypairs.

(** A byte format for payloads: each entry is the key and the value,
    each preceded by its length in one byte; the entries are written
    starting from the one the order points at. *)
Definition entryBytes (kv : string * string) : option (list byte) :=
  lk ← Byte.of_nat (String.length kv.1);
  lv ← Byte.of_nat (String.length kv.2);
  Some (lk :: list_byte_of_string kv.1 ++ lv :: list_byte_of_string kv.2).

Definition pairsEncode (order : nat) (m : gmap string string)
  : result (list byte) :=
  match mapM entryBytes (rotate order (map_to_list m)) with
  | Some bs => inl (concat bs)
  | None => inr (LibError "gob: entry too long")
  end.

Definition errEOF : error := LibError "unexpected EOF".

Fixpoint decodeEntries (fuel : nat) (bs : list byte) (m : gmap string string)
  : gmap string string * option error :=
  match bs with
  | [] => (m, None)
  | lk :: bs1 =>
      match fuel with
      | O => (m, Some errEOF)
      | S fuel' =>
          let nk := Byte.to_nat lk in
          match drop nk bs1 with
          | [] => (m, Some errEOF)
          | lv :: bs2 =>
              let nv := Byte.to_nat lv in
              if decide (nk ≤ List.length bs1 ∧ nv ≤ List.length bs2)%nat
              then decodeEntries fuel' (drop nv bs2)
                     (<[string_of_list_byte (take nk bs1) :=
                          string_of_list_byte (take nv bs2)]> m)
              else (m, Some errEOF)
          end
      end
  end.

Definition pairsDecode (bs : list byte) (m : gmap string string)
  : gmap string string * option error :=
  decodeEntries (List.length bs) bs m.

Definition pairsGob : Gob := mkGob pairsEncode pairsDecode.

End standin.

(** Where [New] stands when it calls [load] for the identifier [id]:
    the options [o] of the store copied to a fresh address, and the
    session made so far. *)
Definition New_heap (o : Options) (σ : World) : World :=
  set_heap (<[fresh (dom (heap σ)) := o]> (heap σ)) σ.
Definition New_session (id name : string) (σ : World) : Session :=
  mkSession id ∅ (Some (fresh (dom (heap σ)))) true name.

(** The operations a run added to the log. *)
Definition issued (σ σ' : World) : list StorageOp :=
  drop (List.length (oplog (cluster σ))) (oplog (cluster σ')).

(** An operation that writes no row under another identifier than
    [id]. *)
Definition writes_only (id : string) (op : StorageOp) : Prop :=
  match op with
  | OpExec _ id' _ _ => id' = id
  | _ => True
  end.

(** The cookie [sessions.NewCookie] makes from the options [o]. *)
Definition cookie_of (name value : string) (o : Options) : Cookie :=
  mkCookie name value (Path o) (Domain o)
    (if decide (0 < MaxAge o) then ExpiresNowPlus (MaxAge o)
     else if decide (MaxAge o < 0) then ExpiresUnix1
     else ExpiresUnset)
    (MaxAge o) (Secure o) (HttpOnly o).

(** A character that trimming the padding keeps. *)
Definition notPadding (ch : ascii) : Prop :=
  strings.ContainsRune "=" ch = false.

(** ** A two-request scenario, run on the model *)

Module scenario.

Definition key : list byte := list_byte_of_string "k1".

(** Nothing allocated, an empty healthy cluster, 32 bytes of entropy. *)
Definition boot : World :=
  mkWorld ∅ (mkCluster None None None false ∅ [])
    (list_byte_of_string "0123456789abcdefghijklmnopqrstuv") [].

Definition run {A} (m : M A) (σ : World) : option (A * World) :=
  match m σ with
  | Done a σ' => Some (a, σ')
  | Panic => None
  end.

(** The store is created and its default max-age set to one hour. *)
Definition setup : M CassandraStore :=
  '(c, _) ← NewCassandraStore standin.codecsFromKeys "" [key];
  _ ← assign (c_Options c) (mkOptions "/" "" 3600 false false);
  mret c.

(** First request, without a cookie: the application stores a user
    name in the session and saves it. *)
Definition first_request (c : CassandraStore)
  : M (option error * ResponseWriter * Session) :=
  '(s, _) ← New (H := standin.pairsGob) c (mkRequest []) "sess";
  Save (H := standin.pairsGob) c (mkRequest []) []
    (setValues {[ "user" := "alice" ]} s).

(** The request a client sends back after the response [w]. *)
Definition reply (w : ResponseWriter) : Request :=
  mkRequest (map (fun ck => (ck_Name ck, ck_Value ck)) w).

Definition second_request (c : CassandraStore) (w : ResponseWriter)
  : M (Session * option error) :=
  New (H := standin.pairsGob) c (reply w) "sess".

Definition both_requests : M (Session * option error) :=
  c ← setup;
  '(_, w, _) ← first_request c;
  second_request c w.

(** A request whose session changes its own options before saving. *)
Definition own_options : Options := mkOptions "/app" "" 60 true true.

Definition save_with_own_options
  : M (option error * ResponseWriter * Session) :=
  c ← setup;
  '(s, _) ← New (H := standin.pairsGob) c (mkRequest []) "sess";
  _ ← assign (s_Options s) own_options;
  Save (H := standin.pairsGob) c (mkRequest []) [] s.

(** The store and the world that [setup] leaves. *)
Definition store : CassandraStore :=
  mkStore (standin.codecsFromKeys [key]) (Some 1%positive) "sessions".
Definition ready : World :=
  mkWorld {[ 1%positive := mkOptions "/" "" 3600 false false ]}
    (cluster boot) (entropy boot) [].

(** A well-formed cookie for an identifier that was never stored. *)
Definition unknown : Request := mkRequest [("sess", "k1|sess|NEVERSTORED")].

(** A session that is to be deleted: max-age below zero. *)
Definition expired : World :=
  mkWorld {[ 1%positive := mkOptions "/" "" 3600 false false;
             2%positive := mkOptions "/" "" (-1) false false ]}
    (cluster boot) (entropy boot) [].
Definition expired_session : Session :=
  mkSession "GAYTEMZU" ∅ (Some 2%positive) false "sess".

(** The world while the first request is served, and the session
    [New] made for it: its options at address 2 are a copy of the
    store's. *)
Definition serving : World :=
  mkWorld {[ 1%positive := mkOptions "/" "" 3600 false false;
             2%positive := mkOptions "/" "" 3600 false false ]}
    (cluster boot) (entropy boot) [].
Definition new_session : Session :=
  mkSession "" ∅ (Some 2%positive) true "sess".

(** The same with a cluster that cannot be reached. *)
Definition no_hosts : error := LibError "gocql: no hosts available".
Definition unreachable : World :=
  mkWorld (heap serving) (mkCluster (Some no_hosts) None None false ∅ [])
    (entropy boot) [].

(** Flip the lowest bit of the first character of a cookie value. *)
Definition flip_bit (v : string) : string :=
  match v with
  | String (Ascii b0 b1 b2 b3 b4 b5 b6 b7) rest =>
      String (Ascii (negb b0) b1 b2 b3 b4 b5 b6 b7) rest
  | EmptyString => EmptyString
  end.

(** The cookie of the first response with one bit flipped. *)
Definition forged : Request :=
  mkRequest
    [("sess",
      flip_bit "k1|sess|GAYTEMZUGU3DOOBZMFRGGZDFMZTWQ2LKNNWG23TPOBYXE43UOV3A")].

End scenario.

(** ** Vocabulary for the statements about the storage helpers *)

(** The faults injected into a cluster; no operation changes them. *)
Definition faults (cl : Cluster) : option error * option error * option error :=
  (connect_fault cl, scan_fault cl, exec_fault cl).

Definition healthy (cl : Cluster) : Prop :=
  faults cl = (None, None, None).

(** The operations of one [load] and of one [save] that reach the
    query. *)
Definition load_ops (c : CassandraStore) (id : string) : list StorageOp :=
  [OpCreateSession; OpQuery (selectCQL (TableName c)) id; OpClose].
Definition save_ops (c : CassandraStore) (id : string) (buf : list byte)
           (ttl : Z) : list StorageOp :=
  [OpCreateSession; OpExec (insertCQL (TableName c)) id buf ttl; OpClose].

(** Every character of [s] satisfies [P]. *)
Definition allChars (P : ascii -> Prop) (s : string) : Prop :=
  Forall P (list_ascii_of_string s).

(** A character of the base-32 alphabet. *)
Definition inAlphabet (ch : ascii) : Prop :=
  ∃ i, String.get i base32.encodeStd = Some ch.

(** The request a client makes when it sends back the cookie [ck]. *)
Definition request_with (ck : Cookie) : Request :=
  mkRequest [(ck_Name ck, ck_Value ck)].

(** ** Worlds for the edge cases *)

Module edge.

(** A stored blob that is cut off after its first entry: the entry
    user = alice, then a length byte announcing nine bytes of which
    one is there. *)
Definition cut_blob : list byte :=
  ["004"; "u"; "s"; "e"; "r"; "005"; "a"; "l"; "i"; "c"; "e"; "009"; "x"]%byte.

Definition corrupt : World :=
  mkWorld (heap scenario.ready)
    (mkCluster None None None false
       {[ ("sessions", "NEVERSTORED") := (cut_blob, 3600) ]} [])
    (entropy scenario.boot) [].

(** The entropy source has run dry. *)
Definition dry : World :=
  mkWorld (heap scenario.serving) (cluster scenario.boot) [] [].

(** A session that already has an identifier and a payload. *)
Definition known_session : Session :=
  mkSession "GAYTEMZU" {[ "user" := "alice" ]} (Some 2%positive) true "sess".

(** The same session as a later request sees it before [load]. *)
Definition blank_session : Session :=
  mkSession "GAYTEMZU" ∅ (Some 2%positive) true "sess".

(** The INSERT times out on the client and is applied all the same. *)
Definition write_timeout : error := LibError "gocql: write timeout".
Definition late_write : World :=
  mkWorld (heap scenario.serving)
    (mkCluster None None (Some write_timeout) true ∅ [])
    (entropy scenario.boot) [].

(** A session with two entries, and a world in which the runtime
    walks a map first in one order and then in another. *)
Definition two_entries : Session :=
  mkSession "GAYTEMZU" {[ "user" := "alice"; "role" := "admin" ]}
            (Some 2%positive) true "sess".
Definition reordering : World :=
  mkWorld (heap scenario.serving) (cluster scenario.boot)
    (entropy scenario.boot) [0%nat; 1%nat].

(** A store made without key pairs: it has no codec. *)
Definition keyless : CassandraStore :=
  mkStore [] (Some 1%positive) "sessions".

(** The payload user = alice as the scenario's encoder writes it. *)
Definition alice_blob : list byte :=
  ["004"; "u"; "s"; "e"; "r"; "005"; "a"; "l"; "i"; "c"; "e"]%byte.

End edge.

(** * Proofs *)

(** ** base32 and TrimRight *)

Example base32_foobar :
  base32.EncodeToString ["f"; "o"; "o"; "b"; "a"; "r"]%byte = "MZXW6YTBOI======".
Proof. reflexivity. Qed.

Example base32_fo :
  strings.TrimRight (base32.EncodeToString ["f"; "o"]%byte) "=" = "MZXQ".
Proof. reflexivity. Qed.

Lemma land31_bound v : 0 <= Z.land v 31 < 32.
Proof.
  change 31 with (Z.ones 5). rewrite Z.land_ones by lia.
  apply Z.mod_pos_bound. reflexivity.
Qed.

(** No character of the alphabet is the padding character. *)
Lemma encodeChar_notPadding v : notPadding (base32.encodeChar v).
Proof.
  unfold notPadding, base32.encodeChar.
  pose proof (land31_bound v) as Hb.
  assert (Hn : (Z.to_nat (Z.land v 31) < 32)%nat) by lia.
  remember (Z.to_nat (Z.land v 31)) as n eqn:En. clear En Hb.
  do 32 (destruct n as [|n]; [reflexivity|]). lia.
Qed.

Lemma TrimRight_keep ch rest cutset :
  strings.ContainsRune cutset ch = false ->
  strings.TrimRight (String ch rest) cutset
  = String ch (strings.TrimRight rest cutset).
Proof.
  intros Hch. cbn [strings.TrimRight].
  destruct (strings.TrimRight rest cutset); [rewrite Hch|]; reflexivity.
Qed.

(** Data characters in front are untouched by the trim. *)
Lemma TrimRight_data (l : list ascii) s :
  Forall notPadding l ->
  strings.TrimRight (base32.str l +:+ s) "="
  = base32.str l +:+ strings.TrimRight s "=".
Proof.
  induction 1 as [|ch l Hch _ IH]; [reflexivity|].
  change (base32.str (ch :: l) +:+ s) with (String ch (base32.str l +:+ s)).
  rewrite TrimRight_keep by exact Hch. rewrite IH. reflexivity.
Qed.

Lemma encodeChars_notPadding (l : list Z) :
  Forall notPadding (map base32.encodeChar l).
Proof. apply Forall_map, Forall_forall. intros v _. apply encodeChar_notPadding. Qed.

Lemma length_str_app (l : list ascii) s :
  String.length (base32.str l +:+ s) = (List.length l + String.length s)%nat.
Proof.
  induction l as [|ch l IH]; [reflexivity|].
  change (base32.str (ch :: l) +:+ s) with (String ch (base32.str l +:+ s)).
  cbn [String.length List.length Nat.add]. f_equal. exact IH.
Qed.

(** A full quantum is eight data characters; the rest of the input
    follows. *)
Lemma EncodeToString_block s0 s1 s2 s3 s4 rest :
  base32.EncodeToString (s0 :: s1 :: s2 :: s3 :: s4 :: rest)
  = base32.str (map base32.encodeChar
      (base32.unpack 5 (base32.byteZ s0) (base32.byteZ s1) (base32.byteZ s2)
                       (base32.byteZ s3) (base32.byteZ s4)))
    +:+ base32.EncodeToString rest.
Proof. reflexivity. Qed.

(** Two trailing bytes give four data characters and four paddings. *)
Lemma EncodeToString_two s0 s1 :
  base32.EncodeToString [s0; s1]
  = base32.str (map base32.encodeChar
      (take 4 (base32.unpack 2 (base32.byteZ s0) (base32.byteZ s1) 0 0 0)))
    +:+ "====".
Proof. reflexivity. Qed.

(** The identifier made from 32 random bytes: 52 characters, none of
    them padding. *)
Lemma TrimRight_EncodeToString_32 (k : list byte) :
  List.length k = 32%nat ->
  String.length (strings.TrimRight (base32.EncodeToString k) "=") = 52%nat.
Proof.
  intros Hk.
  do 32 (destruct k as [|? k]; [discriminate Hk|]).
  destruct k; [|discriminate Hk]. clear Hk.
  rewrite !EncodeToString_block, EncodeToString_two.
  rewrite !TrimRight_data by apply encodeChars_notPadding.
  rewrite !length_str_app. reflexivity.
Qed.

Lemma TrimRight_EncodeToString_32_nonempty (k : list byte) :
  List.length k = 32%nat ->
  strings.TrimRight (base32.EncodeToString k) "=" <> "".
Proof.
  intros Hk Hid. apply TrimRight_EncodeToString_32 in Hk.
  rewrite Hid in Hk. discriminate Hk.
Qed.

(** ** load and New *)

Ltac run := unfold mbind, M_bind, mret, M_ret in *; cbn beta iota in *.

Section store_facts.

Context `{Gob}.

(** [load] always returns; it touches neither the heap, the entropy
    nor the rows, and of the session only [Values]. *)
Lemma load_runs c s σ :
  ∃ s' err σ',
    load c s σ = Done (s', err) σ'
    ∧ heap σ' = heap σ ∧ entropy σ' = entropy σ
    ∧ rows (cluster σ') = rows (cluster σ)
    ∧ ID s' = ID s ∧ s_Options s' = s_Options s
    ∧ IsNew s' = IsNew s ∧ Name s' = Name s.
Proof.
  unfold load, gocql.CreateSession, gocql.Scan, gocql.Close. run.
  cbn [connect_fault scan_fault rows log_op cluster set_cluster].
  destruct (connect_fault (cluster σ)) as [e|]; cbn; [by eauto 12|].
  destruct (scan_fault (cluster σ)) as [e|]; cbn; [by eauto 12|].
  destruct (rows (cluster σ) !! (TableName c, ID s)) as [[vals ttl]|]; cbn;
    [|by eauto 12].
  destruct (gob_Decode vals (Values s)) as [values err]. by eauto 12.
Qed.

(** Every error of the storage calls reaches the caller of [load]
    wrapped by [fmt.Errorf]: the only way for [load] to return the
    sentinel itself is for the payload decoder to return it. *)
Lemma load_ErrNotFound c s σ s' σ' :
  load c s σ = Done (s', Some ErrNotFound) σ' ->
  ∃ vals ttl,
    rows (cluster σ) !! (TableName c, ID s) = Some (vals, ttl)
    ∧ (gob_Decode vals (Values s)).2 = Some ErrNotFound.
Proof.
  unfold load, gocql.CreateSession, gocql.Scan, gocql.Close. run.
  cbn [connect_fault scan_fault rows log_op cluster set_cluster].
  destruct (connect_fault (cluster σ)) as [e|]; cbn; [discriminate|].
  destruct (scan_fault (cluster σ)) as [e|]; cbn; [discriminate|].
  destruct (rows (cluster σ) !! (TableName c, ID s)) as [[vals ttl]|]; cbn;
    [|discriminate].
  destruct (gob_Decode vals (Values s)) as [values err] eqn:Hdec.
  intros [= _ -> _]. exists vals, ttl. by rewrite Hdec.
Qed.

(** A lookup miss: no fault, no row.  [load] reports it as a fresh
    [fmt.Errorf] value, not as [gocql.ErrNotFound]. *)
Lemma load_miss c s σ :
  connect_fault (cluster σ) = None ->
  scan_fault (cluster σ) = None ->
  rows (cluster σ) !! (TableName c, ID s) = None ->
  ∃ σ', load c s σ = Done (s, Some (Errorf "cassandrastore: not found")) σ'.
Proof.
  intros Hc Hs Hr.
  unfold load, gocql.CreateSession, gocql.Scan, gocql.Close. run.
  cbn [connect_fault scan_fault rows log_op cluster set_cluster].
  rewrite Hc; cbn. rewrite Hs; cbn. rewrite Hr; cbn. by eauto.
Qed.

(** [New] up to its call of [load]. *)
Lemma New_no_identifier c r name σ o :
  read σ (c_Options c) = Some o ->
  (∀ v id, http.Request_Cookie r name = inl v ->
           securecookie.DecodeMulti name v (Codecs c) = inl id -> False) ->
  New c r name σ = Done (New_session "" name σ, None) (New_heap o σ).
Proof.
  intros Ho Hno. unfold New, deref, alloc. run. rewrite Ho.
  destruct (http.Request_Cookie r name) as [v|e]; [|reflexivity].
  destruct (securecookie.DecodeMulti name v (Codecs c)) as [id|e] eqn:Hd;
    [|reflexivity].
  destruct (Hno v id); [reflexivity|exact Hd].
Qed.

Lemma New_identifier c r name σ o v id s1 errLoad σ1 :
  read σ (c_Options c) = Some o ->
  http.Request_Cookie r name = inl v ->
  securecookie.DecodeMulti name v (Codecs c) = inl id ->
  load c (New_session id name σ) (New_heap o σ) = Done (s1, errLoad) σ1 ->
  New c r name σ
  = Done (if decide (errLoad ≠ None ∧ errLoad ≠ Some ErrNotFound)
          then setIsNew false s1 else s1, None) σ1.
Proof.
  intros Ho Hv Hd Hl. unfold New, deref, alloc. run. rewrite Ho, Hv, Hd.
  unfold New_session, New_heap in Hl.
  unfold setID, setIsNew, setOptions, sessions.NewSession. cbn.
  rewrite Hl. by destruct (decide _).
Qed.

End store_facts.

(** ** NewCassandraStore *)

(** The store it returns points to default options that exist: path
    "/" and a max-age of 30 days; the table is "sessions" unless a name
    is given. *)
Lemma NewCassandraStore_defaults CodecsFromPairs tableName keypairs σ :
  ∃ c σ',
    NewCassandraStore CodecsFromPairs tableName keypairs σ = Done (c, None) σ'
    ∧ read σ' (c_Options c) = Some (mkOptions "/" "" 2592000 false false)
    ∧ TableName c = (if decide (tableName = "") then "sessions" else tableName)
    ∧ Codecs c = CodecsFromPairs keypairs.
Proof.
  unfold NewCassandraStore, alloc. run.
  eexists _, _. split; [reflexivity|]. unfold read. cbn.
  by rewrite lookup_insert_eq.
Qed.

(** ** What [New] returns *)

Section New_claims.

Context `{Gob}.

(** When [load] finds and decodes the record, [errLoad] is [nil], the
    test [errLoad != nil && ...] fails and [IsNew] keeps the value
    [true] it was given at the start of [New]. *)
Lemma New_loaded_IsNew c r name σ o v id s1 σ1 :
  read σ (c_Options c) = Some o ->
  http.Request_Cookie r name = inl v ->
  securecookie.DecodeMulti name v (Codecs c) = inl id ->
  load c (New_session id name σ) (New_heap o σ) = Done (s1, None) σ1 ->
  New c r name σ = Done (s1, None) σ1 ∧ IsNew s1 = true.
Proof.
  intros Ho Hv Hd Hl.
  rewrite (New_identifier c r name σ o v id s1 None σ1 Ho Hv Hd Hl).
  destruct (decide _) as [[Hne _]|_]; [by destruct Hne|].
  split; [reflexivity|].
  destruct (load_runs c (New_session id name σ) (New_heap o σ))
    as (s' & err & σ' & Hl' & _ & _ & _ & _ & _ & Hnew & _).
  rewrite Hl in Hl'. by injection Hl' as -> _ _.
Qed.

(** A lookup miss: the query reports [gocql.ErrNotFound], [load] wraps
    it in a new error, the comparison with [gocql.ErrNotFound] in [New]
    fails, and [New] clears [IsNew]. *)
Lemma New_lookup_miss_IsNew c r name σ o v id :
  read σ (c_Options c) = Some o ->
  http.Request_Cookie r name = inl v ->
  securecookie.DecodeMulti name v (Codecs c) = inl id ->
  connect_fault (cluster σ) = None ->
  scan_fault (cluster σ) = None ->
  rows (cluster σ) !! (TableName c, id) = None ->
  ∃ s σ', New c r name σ = Done (s, None) σ' ∧ IsNew s = false.
Proof.
  intros Ho Hv Hd Hc Hs Hr.
  destruct (load_miss c (New_session id name σ) (New_heap o σ) Hc Hs Hr)
    as [σ' Hl].
  rewrite (New_identifier c r name σ o v id _ _ _ Ho Hv Hd Hl).
  destruct (decide _) as [_|Hno]; [by eauto|].
  destruct Hno. split; congruence.
Qed.

(** [New] always returns, with a [nil] error; the session's options
    sit at a fresh address of the heap and hold the store's defaults;
    nothing else in the heap has changed. *)
Lemma New_allocates c r name σ o :
  read σ (c_Options c) = Some o ->
  ∃ s σ', New c r name σ = Done (s, None) σ'
          ∧ s_Options s = Some (fresh (dom (heap σ)))
          ∧ heap σ' = <[fresh (dom (heap σ)) := o]> (heap σ).
Proof.
  intros Ho.
  destruct (http.Request_Cookie r name) as [v|e] eqn:Hv;
    [destruct (securecookie.DecodeMulti name v (Codecs c)) as [id|e] eqn:Hd|].
  - destruct (load_runs c (New_session id name σ) (New_heap o σ))
      as (s1 & err & σ1 & Hl1 & Hh & _ & _ & _ & Hp & _).
    rewrite (New_identifier c r name σ o v id s1 err σ1 Ho Hv Hd Hl1).
    eexists _, _; split; [reflexivity|].
    split; [by destruct (decide _)|exact Hh].
  - rewrite (New_no_identifier c r name σ o Ho); [by eauto|].
    intros v' id' Hv' Hd'. congruence.
  - rewrite (New_no_identifier c r name σ o Ho); [by eauto|].
    intros v' id' Hv' Hd'. congruence.
Qed.

(** C7: the options of the session [New] returns are a copy of the
    store's defaults at a new address: equal in value, allocated by
    this call, and separate, so that assigning to them leaves every
    options object that existed before the call (the store's defaults
    and the options of every other session) as it was, and assigning
    to any of those leaves the new session's options as they are. *)
Theorem New_options_are_a_copy c r name σ o :
  read σ (c_Options c) = Some o ->
  ∃ s σ', New c r name σ = Done (s, None) σ'
    ∧ read σ' (s_Options s) = Some o
    ∧ read σ (s_Options s) = None
    ∧ s_Options s ≠ c_Options c
    ∧ (∀ o', ∃ σ'', assign (s_Options s) o' σ' = Done tt σ''
                    ∧ read σ'' (s_Options s) = Some o'
                    ∧ ∀ p, is_Some (read σ p) -> read σ'' p = read σ p)
    ∧ (∀ p o', is_Some (read σ p) ->
               ∃ σ'', assign p o' σ' = Done tt σ''
                      ∧ read σ'' p = Some o'
                      ∧ read σ'' (s_Options s) = Some o).
Proof.
  intros Ho.
  destruct (New_allocates c r name σ o Ho) as (s & σ' & HN & Hs & Hh).
  set (l := fresh (dom (heap σ))) in *.
  assert (Hl : heap σ !! l = None)
    by (apply not_elem_of_dom, is_fresh).
  exists s, σ'. split; [exact HN|]. rewrite Hs. unfold read, assign. cbn.
  rewrite Hh. rewrite lookup_insert_eq.
  repeat split; try done.
  - intros Heq. rewrite <- Heq in Ho. unfold read in Ho. cbn in Ho. congruence.
  - intros o'. eexists; split; [reflexivity|]. cbn.
    split; [by rewrite lookup_insert_eq|].
    intros [l'|] [x Hx]; cbn in *; [|done].
    rewrite !lookup_insert_ne; [done|congruence..].
  - intros [l'|] o' [x Hx]; cbn in *; [|done].
    assert (l ≠ l') by congruence.
    rewrite lookup_insert_ne, Hx by done. eexists; split; [reflexivity|]. cbn.
    split; [by rewrite lookup_insert_eq|].
    by rewrite lookup_insert_ne, lookup_insert_eq.
Qed.

(** C8: when the request has no cookie of that name, or every codec
    rejects its value, [New] returns a fresh session ([IsNew = true],
    no payload, no identifier) with a [nil] error, and has not called
    the cluster. *)
Theorem New_decode_failure_is_fresh c r name σ o :
  read σ (c_Options c) = Some o ->
  (∀ v, http.Request_Cookie r name = inl v ->
        ∃ e, securecookie.DecodeMulti name v (Codecs c) = inr e) ->
  ∃ s σ', New c r name σ = Done (s, None) σ'
    ∧ IsNew s = true ∧ Values s = ∅ ∧ ID s = ""
    ∧ cluster σ' = cluster σ.
Proof.
  intros Ho Hfail.
  rewrite (New_no_identifier c r name σ o Ho); [by eauto 8|].
  intros v id Hv Hd. destruct (Hfail v Hv) as [e He]. congruence.
Qed.

(** C10: whatever the request, the session name, the state of the
    cluster and the payload decoder, [New] on a store that has its
    default options returns a session (with allocated options) and a
    [nil] error. *)
Theorem New_returns_session_and_nil c r name σ o :
  read σ (c_Options c) = Some o ->
  ∃ s σ', New c r name σ = Done (s, None) σ'
          ∧ is_Some (read σ' (s_Options s)).
Proof.
  intros Ho.
  destruct (New_allocates c r name σ o Ho) as (s & σ' & HN & Hs & Hh).
  exists s, σ'. split; [exact HN|].
  rewrite Hs. unfold read. cbn. rewrite Hh, lookup_insert_eq. by eexists.
Qed.

End New_claims.

(** ** save and Save *)

Section Save_facts.

Context `{Gob}.

Lemma issued_app σ σ' ops :
  oplog (cluster σ') = oplog (cluster σ) ++ ops -> issued σ σ' = ops.
Proof. intros Hop. unfold issued. rewrite Hop. by rewrite drop_app_length. Qed.

Lemma NewCookie_run name value p σ o :
  read σ p = Some o ->
  sessions.NewCookie name value p σ = Done (cookie_of name value o) σ.
Proof. intros Ho. unfold sessions.NewCookie, deref. run. by rewrite Ho. Qed.

(** The block that makes the identifier leaves the heap, the cluster
    and the rest of the session alone. *)
Lemma Save_identifier_runs s σ :
  ∃ s1 σ1, Save_identifier s σ = Done s1 σ1
    ∧ heap σ1 = heap σ ∧ cluster σ1 = cluster σ
    ∧ s_Options s1 = s_Options s ∧ Values s1 = Values s
    ∧ Name s1 = Name s ∧ IsNew s1 = IsNew s.
Proof.
  unfold Save_identifier, securecookie.GenerateRandomKey. run.
  destruct (decide (ID s = "")); [|by eauto 10].
  destruct (decide _); by eauto 10.
Qed.

Lemma Save_identifier_kept s σ :
  ID s ≠ "" -> Save_identifier s σ = Done s σ.
Proof. intros Hid. unfold Save_identifier. by destruct (decide _). Qed.

Lemma Save_identifier_made s σ :
  ID s = "" -> (32 ≤ List.length (entropy σ))%nat ->
  Save_identifier s σ
  = Done (setID (strings.TrimRight
                   (base32.EncodeToString (take 32 (entropy σ))) "=") s)
         (set_entropy (drop 32 (entropy σ)) σ).
Proof.
  intros Hid Hlen. unfold Save_identifier, securecookie.GenerateRandomKey. run.
  destruct (decide (ID s = "")); [|done]. by destruct (decide _).
Qed.

(** What [save] does, case by case: the connection, the payload
    encoder and the insert can each fail. *)
Lemma save_cases c s σ o :
  read σ (s_Options s) = Some o ->
  ∃ err ops σ',
    save c s σ = Done err σ'
    ∧ heap σ' = heap σ ∧ entropy σ' = entropy σ
    ∧ oplog (cluster σ') = oplog (cluster σ) ++ ops
    ∧ Forall (writes_only (ID s)) ops
    ∧ (connect_fault (cluster σ) = None ->
       ∀ buf, gob_Encode (next_order σ) (Values s) = inl buf ->
         ops = [OpCreateSession;
                OpExec (insertCQL (TableName c)) (ID s) buf (MaxAge o);
                OpClose]
         ∧ err = exec_fault (cluster σ)).
Proof.
  intros Ho. unfold save, gocql.CreateSession, gocql.Exec, gocql.Close, deref,
    pick_order, next_order.
  run. unfold read in *. cbn.
  destruct (connect_fault (cluster σ)) as [e|] eqn:Hc; cbn.
  { eexists _, [OpCreateSession], _. split; [reflexivity|]. cbn.
    split_and!; [done..|by repeat constructor|intros; congruence]. }
  destruct (gob_Encode (hd 0%nat (map_orders σ)) (Values s))
    as [buf|e] eqn:He; cbn.
  - rewrite Ho. cbn.
    destruct (exec_fault (cluster σ)) as [e|]; cbn.
    + destruct (fault_applied (cluster σ)); cbn;
        (eexists _, [OpCreateSession; OpExec _ _ _ _; OpClose], _;
         split; [reflexivity|]; cbn; rewrite <- !(assoc_L (++)); cbn;
         split_and!; [done..|by repeat constructor|];
         by intros _ buf' [= <-]).
    + eexists _, [OpCreateSession; OpExec _ _ _ _; OpClose], _.
      split; [reflexivity|]. cbn. rewrite <- !(assoc_L (++)). cbn.
      split_and!; [done..|by repeat constructor|].
      by intros _ buf' [= <-].
  - eexists _, [OpCreateSession; OpClose], _.
    split; [reflexivity|]. cbn. rewrite <- !(assoc_L (++)). cbn.
    split_and!; [done..|by repeat constructor|intros; congruence].
Qed.

End Save_facts.

Section Save_claims.

Context `{Gob}.

(** [Save] on a session that is not being deleted, in terms of its
    two steps. *)
Lemma Save_steps c r w s σ o s1 σ1 err σ2 :
  read σ (s_Options s) = Some o ->
  0 <= MaxAge o ->
  Save_identifier s σ = Done s1 σ1 ->
  save c s1 σ1 = Done err σ2 ->
  Save c r w s σ
  = match err with
    | Some e => Done (Some (wrapErr e), w, s1) σ2
    | None =>
        match securecookie.EncodeMulti (Name s1) (ID s1) (Codecs c) with
        | inr e => Done (Some (wrapErr e), w, s1) σ2
        | inl encoded =>
            match read σ2 (c_Options c) with
            | Some oc =>
                Done (None, w ++ [cookie_of (Name s1) encoded oc], s1) σ2
            | None => Panic
            end
        end
    end.
Proof.
  intros Ho Hage Hid Hsave. unfold Save, deref. run. rewrite Ho.
  destruct (decide (MaxAge o < 0)); [lia|].
  rewrite Hid, Hsave. destruct err as [e|]; [reflexivity|].
  destruct (securecookie.EncodeMulti _ _ _) as [encoded|e]; [|reflexivity].
  unfold sessions.NewCookie, deref. run.
  by destruct (read σ2 (c_Options c)).
Qed.

(** On the successful path the cookie is made from the options the
    store points to, [c.Options], whatever the session's own options
    are. *)
Lemma Save_cookie_from_store_options c r w s σ o oc s1 σ1 σ2 encoded :
  read σ (s_Options s) = Some o ->
  0 <= MaxAge o ->
  read σ (c_Options c) = Some oc ->
  Save_identifier s σ = Done s1 σ1 ->
  save c s1 σ1 = Done None σ2 ->
  securecookie.EncodeMulti (Name s1) (ID s1) (Codecs c) = inl encoded ->
  Save c r w s σ = Done (None, w ++ [cookie_of (Name s1) encoded oc], s1) σ2.
Proof.
  intros Ho Hage Hoc Hid Hsave Henc.
  rewrite (Save_steps c r w s σ o s1 σ1 None σ2 Ho Hage Hid Hsave), Henc.
  destruct (Save_identifier_runs s σ)
    as (s1' & σ1' & Hid' & Hh1 & _ & Hp1 & _).
  rewrite Hid in Hid'. injection Hid' as <- <-.
  assert (Ho1 : read σ1 (s_Options s1) = Some o)
    by (unfold read in *; by rewrite Hp1, Hh1).
  destruct (save_cases c s1 σ1 o Ho1) as (err & ops & σ' & Hsave' & Hh2 & _).
  rewrite Hsave in Hsave'. injection Hsave' as <- <-.
  unfold read in *. by rewrite Hh2, Hh1, Hoc.
Qed.

(** C4: with a negative max-age in the session's options, [Save] hands
    the transport a cookie with an empty value and that max-age,
    returns [nil], and leaves the world as it was: nothing is asked
    of the cluster, no row is written or removed. *)
Theorem Save_negative_MaxAge_expires_cookie c r w s σ o :
  read σ (s_Options s) = Some o ->
  MaxAge o < 0 ->
  ∃ cookie, Save c r w s σ = Done (None, w ++ [cookie], s) σ
    ∧ ck_Name cookie = Name s ∧ ck_Value cookie = ""
    ∧ ck_MaxAge cookie = MaxAge o ∧ ck_Path cookie = Path o
    ∧ ck_Expires cookie = ExpiresUnix1.
Proof.
  intros Ho Hage. exists (cookie_of (Name s) "" o).
  split.
  - unfold Save, deref. run. rewrite Ho.
    destruct (decide (MaxAge o < 0)); [|lia].
    by rewrite (NewCookie_run _ _ _ _ o Ho).
  - unfold cookie_of. cbn.
    destruct (decide (0 < MaxAge o)); [lia|].
    by destruct (decide (MaxAge o < 0)); [|lia].
Qed.

(** C5: a session without identifier, saved with a max-age that is
    not negative while 32 bytes of entropy are at hand, gets as
    identifier the base-32 text of those bytes without its padding,
    52 characters and so not empty; [save] then runs on the session
    that carries it: every insert [Save] issues is for that
    identifier, and when the cluster is reachable and the payload
    encodes, the insert for it is issued. *)
Theorem Save_generates_identifier_before_write c r w s σ o :
  read σ (s_Options s) = Some o ->
  0 <= MaxAge o ->
  ID s = "" ->
  (32 ≤ List.length (entropy σ))%nat ->
  is_Some (read σ (c_Options c)) ->
  let id := strings.TrimRight
              (base32.EncodeToString (take 32 (entropy σ))) "=" in
  id ≠ "" ∧ String.length id = 52%nat
  ∧ ∃ err w' σ',
      Save c r w s σ = Done (err, w', setID id s) σ'
      ∧ Forall (writes_only id) (issued σ σ')
      ∧ (connect_fault (cluster σ) = None ->
         ∀ buf, gob_Encode (next_order σ) (Values s) = inl buf ->
           issued σ σ'
           = [OpCreateSession;
              OpExec (insertCQL (TableName c)) id buf (MaxAge o);
              OpClose]).
Proof.
  intros Ho Hage Hid Hlen [oc Hoc] id.
  assert (Hk : List.length (take 32 (entropy σ)) = 32%nat)
    by (rewrite length_take; lia).
  split; [by apply TrimRight_EncodeToString_32_nonempty|].
  split; [by apply TrimRight_EncodeToString_32|].
  pose proof (Save_identifier_made s σ Hid Hlen) as Hmade. fold id in Hmade.
  set (σ1 := set_entropy (drop 32 (entropy σ)) σ) in *.
  assert (Ho1 : read σ1 (s_Options (setID id s)) = Some o) by exact Ho.
  destruct (save_cases c (setID id s) σ1 o Ho1)
    as (err & ops & σ2 & Hsave & Hh2 & _ & Hlog & Hops & Hok).
  rewrite (Save_steps c r w s σ o _ _ _ _ Ho Hage Hmade Hsave).
  assert (Hiss : issued σ σ2 = ops) by (by apply issued_app).
  assert (Hoc2 : read σ2 (c_Options c) = Some oc)
    by (unfold read in *; by rewrite Hh2).
  rewrite Hoc2.
  destruct err as [e|];
    [|destruct (securecookie.EncodeMulti _ _ _) as [encoded|e]];
    (eexists _, _, _; split; [reflexivity|]; rewrite Hiss;
     split; [exact Hops|]; intros Hc buf Hbuf;
     by destruct (Hok Hc buf Hbuf)).
Qed.

(** C6: when the session is not being deleted and [save] returns an
    error, or [save] succeeds and no codec encodes the identifier,
    [Save] returns an error whose text starts with "cassandrastore: "
    and the response writer is the one it was given: no cookie is
    set. *)
Theorem Save_failure_sets_no_cookie c r w s σ o s1 σ1 err σ2 :
  read σ (s_Options s) = Some o ->
  0 <= MaxAge o ->
  Save_identifier s σ = Done s1 σ1 ->
  save c s1 σ1 = Done err σ2 ->
  (is_Some err
   ∨ ∃ e, securecookie.EncodeMulti (Name s1) (ID s1) (Codecs c) = inr e) ->
  ∃ msg, Save c r w s σ
         = Done (Some (Errorf ("cassandrastore: " +:+ msg)), w, s1) σ2.
Proof.
  intros Ho Hage Hid Hsave Hfail.
  rewrite (Save_steps c r w s σ o s1 σ1 err σ2 Ho Hage Hid Hsave).
  destruct err as [e|]; [by exists (Error e)|].
  destruct Hfail as [[e He]|[e He]]; [discriminate He|].
  rewrite He. by exists (Error e).
Qed.

End Save_claims.

(** ** The scenario, run *)

(** [setup] leaves the store and the world named [store] and [ready]. *)
Example setup_ready :
  scenario.run scenario.setup scenario.boot
  = Some (scenario.store, scenario.ready).
Proof. reflexivity. Qed.

(** The first request: a fresh identifier, a row written with the
    store's max-age as TTL, a cookie that decodes to the identifier. *)
Example first_request_saved :
  ∃ w s σ,
    scenario.run (scenario.first_request scenario.store) scenario.ready
    = Some ((None, w, s), σ)
    ∧ ID s = "GAYTEMZUGU3DOOBZMFRGGZDFMZTWQ2LKNNWG23TPOBYXE43UOV3A"
    ∧ (snd <$> rows (cluster σ) !! ("sessions", ID s)) = Some 3600
    ∧ ((λ ck, securecookie.DecodeMulti "sess" (ck_Value ck)
                (Codecs scenario.store)) <$> w) = [inl (ID s)].
Proof.
  eexists _, _, _. split; [vm_compute; reflexivity|].
  split_and!; vm_compute; reflexivity.
Qed.

(** C1: the second request of the scenario presents the cookie of the
    first response; [New] loads the payload stored under its
    identifier, returns a [nil] error, and the session it returns has
    [IsNew = true]. *)
Theorem second_request_loaded_IsNew :
  ∃ s σ,
    scenario.run scenario.both_requests scenario.boot = Some ((s, None), σ)
    ∧ ID s = "GAYTEMZUGU3DOOBZMFRGGZDFMZTWQ2LKNNWG23TPOBYXE43UOV3A"
    ∧ Values s = {[ "user" := "alice" ]}
    ∧ IsNew s = true.
Proof.
  eexists _, _. split; [vm_compute; reflexivity|].
  split_and!; vm_compute; reflexivity.
Qed.

(** C2: the request carries a well-formed cookie for an identifier
    that has no record.  The query reports [gocql.ErrNotFound]; [load]
    returns it wrapped in a new error, "cassandrastore: not found"; the
    comparison with [gocql.ErrNotFound] in [New] fails and the session
    comes back with [IsNew = false]. *)
Theorem lookup_miss_session_not_new :
  ∃ σq s1 σ1 s,
    rows (cluster scenario.ready) !! ("sessions", "NEVERSTORED") = None
    ∧ gocql.Scan "sessions" "SELECT values FROM sessions WHERE id = ?"
                 "NEVERSTORED" scenario.ready
      = Done (inr ErrNotFound) σq
    ∧ load (H := standin.pairsGob) scenario.store
           (New_session "NEVERSTORED" "sess" scenario.ready)
           (New_heap (mkOptions "/" "" 3600 false false) scenario.ready)
      = Done (s1, Some (Errorf "cassandrastore: not found")) σ1
    ∧ New (H := standin.pairsGob) scenario.store scenario.unknown "sess"
          scenario.ready = Done (s, None) σ1
    ∧ IsNew s = false.
Proof.
  eexists _, _, _, _.
  split_and!; [reflexivity|vm_compute; reflexivity..|reflexivity].
Qed.

(** C3: a session whose own options are path "/app" and max-age 60 is
    saved on a store whose options are path "/" and max-age 3600: the
    row is written with TTL 60, the cookie is set with path "/" and
    max-age 3600. *)
Theorem Save_cookie_has_store_options :
  ∃ w s σ,
    scenario.run scenario.save_with_own_options scenario.boot
    = Some ((None, w, s), σ)
    ∧ read σ (s_Options s) = Some scenario.own_options
    ∧ (snd <$> rows (cluster σ) !! ("sessions", ID s)) = Some 60
    ∧ (ck_Path <$> w) = ["/"]
    ∧ (ck_MaxAge <$> w) = [3600].
Proof.
  eexists _, _, _. split; [vm_compute; reflexivity|].
  split_and!; vm_compute; reflexivity.
Qed.

(** ** Instances of the theorems on the scenario *)

Lemma Save_negative_MaxAge_expires_cookie_witness :
  ∃ cookie,
    Save (H := standin.pairsGob) scenario.store (mkRequest []) []
         scenario.expired_session scenario.expired
    = Done (None, [] ++ [cookie], scenario.expired_session) scenario.expired
    ∧ ck_Name cookie = "sess" ∧ ck_Value cookie = ""
    ∧ ck_MaxAge cookie = -1 ∧ ck_Path cookie = "/"
    ∧ ck_Expires cookie = ExpiresUnix1.
Proof.
  apply (Save_negative_MaxAge_expires_cookie (H := standin.pairsGob)
           scenario.store (mkRequest []) [] scenario.expired_session
           scenario.expired (mkOptions "/" "" (-1) false false)).
  - reflexivity.
  - cbn. lia.
Defined.

Lemma Save_generates_identifier_before_write_witness :
  ∃ err w' σ',
    Save (H := standin.pairsGob) scenario.store (mkRequest []) []
         scenario.new_session scenario.serving
    = Done (err, w',
            setID "GAYTEMZUGU3DOOBZMFRGGZDFMZTWQ2LKNNWG23TPOBYXE43UOV3A"
                  scenario.new_session) σ'
    ∧ issued scenario.serving σ'
      = [OpCreateSession;
         OpExec "INSERT INTO sessions (id, values) VALUES (?, ?) USING TTL ?"
                "GAYTEMZUGU3DOOBZMFRGGZDFMZTWQ2LKNNWG23TPOBYXE43UOV3A" [] 3600;
         OpClose].
Proof.
  destruct (Save_generates_identifier_before_write (H := standin.pairsGob)
              scenario.store (mkRequest []) [] scenario.new_session
              scenario.serving (mkOptions "/" "" 3600 false false))
    as (_ & _ & err & w' & σ' & HS & _ & Hok).
  - reflexivity.
  - cbn. lia.
  - reflexivity.
  - cbn. lia.
  - eexists. reflexivity.
  - exists err, w', σ'. split; [exact HS|].
    apply (Hok eq_refl []). reflexivity.
Defined.

Lemma Save_failure_sets_no_cookie_witness :
  ∃ msg s1 σ2,
    Save (H := standin.pairsGob) scenario.store (mkRequest []) []
         scenario.new_session scenario.unreachable
    = Done (Some (Errorf ("cassandrastore: " +:+ msg)), [], s1) σ2.
Proof.
  edestruct (Save_failure_sets_no_cookie (H := standin.pairsGob)
               scenario.store (mkRequest []) [] scenario.new_session
               scenario.unreachable (mkOptions "/" "" 3600 false false))
    as (msg & HS).
  - reflexivity.
  - cbn. lia.
  - vm_compute. reflexivity.
  - vm_compute. reflexivity.
  - left. eexists. reflexivity.
  - exists msg. eexists _, _. exact HS.
Defined.

Lemma New_options_are_a_copy_witness :
  ∃ s σ',
    New (H := standin.pairsGob) scenario.store (mkRequest []) "sess"
        scenario.ready = Done (s, None) σ'
    ∧ read σ' (s_Options s) = Some (mkOptions "/" "" 3600 false false)
    ∧ s_Options s ≠ c_Options scenario.store.
Proof.
  destruct (New_options_are_a_copy (H := standin.pairsGob)
              scenario.store (mkRequest []) "sess" scenario.ready
              (mkOptions "/" "" 3600 false false))
    as (s & σ' & HN & Hcopy & _ & Hne & _).
  - reflexivity.
  - exists s, σ'. split; [exact HN|]. split; [exact Hcopy|exact Hne].
Defined.

(** The cookie of the first response with one bit flipped is rejected
    and the request gets a fresh session. *)
Lemma New_decode_failure_is_fresh_witness :
  ∃ s σ',
    New (H := standin.pairsGob) scenario.store scenario.forged "sess"
        scenario.ready = Done (s, None) σ'
    ∧ IsNew s = true ∧ Values s = ∅ ∧ ID s = ""
    ∧ cluster σ' = cluster scenario.ready.
Proof.
  apply (New_decode_failure_is_fresh (H := standin.pairsGob)
           scenario.store scenario.forged "sess" scenario.ready
           (mkOptions "/" "" 3600 false false)).
  - reflexivity.
  - intros v Hv. vm_compute in Hv. injection Hv as <-.
    eexists. vm_compute. reflexivity.
Defined.

(** The cluster cannot be reached: still a session and no error. *)
Lemma New_returns_session_and_nil_witness :
  ∃ s σ',
    New (H := standin.pairsGob) scenario.store scenario.unknown "sess"
        scenario.unreachable = Done (s, None) σ'
    ∧ is_Some (read σ' (s_Options s)).
Proof.
  apply (New_returns_session_and_nil (H := standin.pairsGob)
           scenario.store scenario.unknown "sess" scenario.unreachable
           (mkOptions "/" "" 3600 false false)).
  reflexivity.
Defined.

(** * Further properties of the store *)

(** ** The storage helpers, case by case *)

Section helper_cases.

Context `{Gob}.

(** Everything [load] does. *)
Lemma load_full c s σ :
  ∃ s' err ops σ',
    load c s σ = Done (s', err) σ'
    ∧ heap σ' = heap σ ∧ entropy σ' = entropy σ
    ∧ faults (cluster σ') = faults (cluster σ)
    ∧ rows (cluster σ') = rows (cluster σ)
    ∧ oplog (cluster σ') = oplog (cluster σ) ++ ops
    ∧ match connect_fault (cluster σ) with
      | Some e => s' = s ∧ err = Some (wrapErr e) ∧ ops = [OpCreateSession]
      | None =>
          ops = load_ops c (ID s)
          ∧ match scan_fault (cluster σ) with
            | Some e => s' = s ∧ err = Some (wrapErr e)
            | None =>
                match rows (cluster σ) !! (TableName c, ID s) with
                | None => s' = s ∧ err = Some (wrapErr ErrNotFound)
                | Some (vals, _) =>
                    s' = setValues (gob_Decode vals (Values s)).1 s
                    ∧ err = (gob_Decode vals (Values s)).2
                end
            end
      end.
Proof.
  unfold load, gocql.CreateSession, gocql.Scan, gocql.Close, load_ops. run.
  cbn [connect_fault scan_fault rows log_op cluster set_cluster].
  destruct (connect_fault (cluster σ)) as [e|] eqn:Hc; cbn.
  { eexists _, _, [OpCreateSession], _. split; [reflexivity|]. cbn.
    unfold faults. cbn. by rewrite Hc. }
  destruct (scan_fault (cluster σ)) as [e|] eqn:Hs; cbn.
  { eexists _, _, _, _. split; [reflexivity|]. cbn.
    unfold faults. cbn. rewrite <- !(assoc_L (++)). cbn. by rewrite Hc, Hs. }
  destruct (rows (cluster σ) !! (TableName c, ID s)) as [[vals ttl]|]; cbn.
  - destruct (gob_Decode vals (Values s)) as [values err] eqn:Hd. cbn.
    eexists _, _, _, _. split; [reflexivity|]. cbn.
    unfold faults. cbn. rewrite <- !(assoc_L (++)). cbn. by rewrite Hc, Hs.
  - eexists _, _, _, _. split; [reflexivity|]. cbn.
    unfold faults. cbn. rewrite <- !(assoc_L (++)). cbn. by rewrite Hc, Hs.
Qed.

(** Everything [save] does. *)
Lemma save_full c s σ o :
  read σ (s_Options s) = Some o ->
  ∃ err ops σ',
    save c s σ = Done err σ'
    ∧ heap σ' = heap σ ∧ entropy σ' = entropy σ
    ∧ faults (cluster σ') = faults (cluster σ)
    ∧ oplog (cluster σ') = oplog (cluster σ) ++ ops
    ∧ match connect_fault (cluster σ) with
      | Some e =>
          err = Some (wrapErr e) ∧ ops = [OpCreateSession]
          ∧ rows (cluster σ') = rows (cluster σ)
      | None =>
          match gob_Encode (next_order σ) (Values s) with
          | inr e =>
              err = Some (wrapErr e) ∧ ops = [OpCreateSession; OpClose]
              ∧ rows (cluster σ') = rows (cluster σ)
          | inl buf =>
              ops = save_ops c (ID s) buf (MaxAge o)
              ∧ err = exec_fault (cluster σ)
              ∧ rows (cluster σ')
                = (if bool_decide (is_Some (exec_fault (cluster σ)))
                      && negb (fault_applied (cluster σ))
                   then rows (cluster σ)
                   else <[(TableName c, ID s) := (buf, MaxAge o)]>
                          (rows (cluster σ)))
          end
      end.
Proof.
  intros Ho. unfold save, gocql.CreateSession, gocql.Exec, gocql.Close, deref,
    save_ops, pick_order, next_order.
  run. unfold read in *. cbn.
  destruct (connect_fault (cluster σ)) as [e|] eqn:Hc; cbn.
  { eexists _, [OpCreateSession], _. split; [reflexivity|]. cbn.
    unfold faults. cbn. by rewrite Hc. }
  destruct (gob_Encode (hd 0%nat (map_orders σ)) (Values s))
    as [buf|e] eqn:He; cbn.
  - rewrite Ho. cbn.
    destruct (exec_fault (cluster σ)) as [e|] eqn:Hx; cbn.
    + destruct (fault_applied (cluster σ)); cbn;
        (eexists _, _, _; split; [reflexivity|]; cbn;
         unfold faults; cbn; rewrite <- !(assoc_L (++)); cbn;
         by rewrite Hc, Hx).
    + eexists _, _, _. split; [reflexivity|]. cbn.
      unfold faults. cbn. rewrite <- !(assoc_L (++)). cbn. by rewrite Hc, Hx.
  - eexists _, _, _. split; [reflexivity|]. cbn.
    unfold faults. cbn. rewrite <- !(assoc_L (++)). cbn. by rewrite Hc.
Qed.

End helper_cases.

(** ** NewCassandraStore, load and save *)

(** X1: [NewCassandraStore] never fails and does not contact the
    cluster.  The store it returns has the table name given, or
    "sessions" for the empty name, and points to a newly allocated
    options object holding path "/" and a max-age of 2592000 seconds;
    the options objects that existed before are untouched. *)
Theorem NewCassandraStore_contract CodecsFromPairs tableName keypairs σ :
  ∃ c σ',
    NewCassandraStore CodecsFromPairs tableName keypairs σ = Done (c, None) σ'
    ∧ TableName c = (if decide (tableName = "") then "sessions" else tableName)
    ∧ Codecs c = CodecsFromPairs keypairs
    ∧ read σ' (c_Options c) = Some (mkOptions "/" "" 2592000 false false)
    ∧ read σ (c_Options c) = None
    ∧ cluster σ' = cluster σ
    ∧ ∀ p, is_Some (read σ p) -> read σ' p = read σ p.
Proof.
  unfold NewCassandraStore, alloc. run.
  eexists _, _. split; [reflexivity|]. unfold read. cbn.
  assert (Hl : heap σ !! fresh (dom (heap σ)) = None)
    by (apply not_elem_of_dom, is_fresh).
  split_and!; [done|done|by rewrite lookup_insert_eq|done|done|].
  intros [l|] [x Hx]; cbn in *; [|done].
  rewrite lookup_insert_ne; [done|congruence].
Qed.

Section helper_properties.

Context `{Gob}.

(** X2: [load] only reads.  It leaves the rows as they are, and what
    it asks of the cluster is one [CreateSession] and, when that
    succeeds, one SELECT for the session's identifier on the store's
    table followed by [Close]: the connection is released on every
    path, also when the query or the decoding fails. *)
Theorem load_reads_and_releases c s σ :
  ∃ s' err σ',
    load c s σ = Done (s', err) σ'
    ∧ rows (cluster σ') = rows (cluster σ)
    ∧ issued σ σ'
      = match connect_fault (cluster σ) with
        | Some _ => [OpCreateSession]
        | None =>
            [OpCreateSession;
             OpQuery ("SELECT values FROM " +:+ TableName c +:+ " WHERE id = ?")
                     (ID s);
             OpClose]
        end.
Proof.
  destruct (load_full c s σ)
    as (s' & err & ops & σ' & Hl & _ & _ & _ & Hr & Hlog & Hcases).
  exists s', err, σ'. split; [exact Hl|]. split; [exact Hr|].
  rewrite (issued_app σ σ' ops Hlog).
  destruct (connect_fault (cluster σ)); [by destruct Hcases as (_ & _ & ->)|].
  by destruct Hcases as [-> _].
Qed.

(** X3: when [load] gets no blob (the cluster cannot be reached, the
    query fails, or there is no row for the identifier) it returns an
    error made by [fmt.Errorf] whose text starts with
    "cassandrastore: ", and the session is exactly as it was. *)
Theorem load_failure_wrapped c s σ :
  (is_Some (connect_fault (cluster σ))
   ∨ is_Some (scan_fault (cluster σ))
   ∨ rows (cluster σ) !! (TableName c, ID s) = None) ->
  ∃ msg σ',
    load c s σ = Done (s, Some (Errorf ("cassandrastore: " +:+ msg))) σ'.
Proof.
  intros Hno.
  destruct (load_full c s σ)
    as (s' & err & ops & σ' & Hl & _ & _ & _ & _ & _ & Hcases).
  rewrite Hl.
  destruct (connect_fault (cluster σ)) as [e|].
  { destruct Hcases as (-> & -> & _). by exists (Error e), σ'. }
  destruct Hcases as [_ Hcases].
  destruct (scan_fault (cluster σ)) as [e|].
  { destruct Hcases as (-> & ->). by exists (Error e), σ'. }
  destruct (rows (cluster σ) !! (TableName c, ID s)) as [[vals ttl]|].
  { destruct Hno as [[? [=]]|[[? [=]]|[=]]]. }
  destruct Hcases as (-> & ->). by exists "not found", σ'.
Qed.

(** X4: [save] releases what it acquires and writes only what it could
    encode: a failed [CreateSession] is the only call; otherwise the
    calls end with [Close], and the INSERT (identifier, encoded
    payload, the session's max-age as TTL) is issued exactly when the
    payload encodes. *)
Theorem save_calls c s σ o :
  read σ (s_Options s) = Some o ->
  ∃ err σ',
    save c s σ = Done err σ'
    ∧ issued σ σ'
      = match connect_fault (cluster σ), gob_Encode (next_order σ) (Values s) with
        | Some _, _ => [OpCreateSession]
        | None, inr _ => [OpCreateSession; OpClose]
        | None, inl buf =>
            [OpCreateSession;
             OpExec ("INSERT INTO " +:+ TableName c
                       +:+ " (id, values) VALUES (?, ?) USING TTL ?")
                    (ID s) buf (MaxAge o);
             OpClose]
        end.
Proof.
  intros Ho.
  destruct (save_full c s σ o Ho)
    as (err & ops & σ' & Hs & _ & _ & _ & Hlog & Hcases).
  exists err, σ'. split; [exact Hs|].
  rewrite (issued_app σ σ' ops Hlog).
  destruct (connect_fault (cluster σ)); [by destruct Hcases as (_ & -> & _)|].
  destruct (gob_Encode (next_order σ) (Values s)); [by destruct Hcases as (-> & _)|].
  by destruct Hcases as (_ & -> & _).
Qed.

(** X5: [save] touches one row at most.  Every row other than the one
    of the session's identifier on the store's table is as before.  If
    [save] returns [nil], that row holds the encoded payload with the
    session's max-age as TTL.  If [save] fails before the INSERT is
    issued (the cluster cannot be reached, or the payload does not
    encode), no row has changed.  Of that row after an INSERT that
    reported an error nothing is said: the cluster may have applied
    it. *)
Theorem save_upserts_one_row c s σ o :
  read σ (s_Options s) = Some o ->
  ∃ err σ',
    save c s σ = Done err σ'
    ∧ (∀ k, k ≠ (TableName c, ID s) ->
            rows (cluster σ') !! k = rows (cluster σ) !! k)
    ∧ (err = None ->
       ∃ buf, gob_Encode (next_order σ) (Values s) = inl buf
              ∧ rows (cluster σ') !! (TableName c, ID s) = Some (buf, MaxAge o))
    ∧ (is_Some (connect_fault (cluster σ))
       ∨ (∃ e, gob_Encode (next_order σ) (Values s) = inr e) ->
       is_Some err ∧ rows (cluster σ') = rows (cluster σ)).
Proof.
  intros Ho.
  destruct (save_full c s σ o Ho)
    as (err & ops & σ' & Hs & _ & _ & _ & _ & Hcases).
  exists err, σ'. split; [exact Hs|].
  destruct (connect_fault (cluster σ)) as [e|].
  { destruct Hcases as (-> & _ & Hr). rewrite Hr.
    split_and!; [done|discriminate|by eauto]. }
  destruct (gob_Encode (next_order σ) (Values s)) as [buf|e].
  - destruct Hcases as (_ & -> & Hr). rewrite Hr. split_and!.
    + intros k Hk. destruct (_ && _); [done|]. by rewrite lookup_insert_ne.
    + intros Hx. rewrite Hx. cbn. exists buf. by rewrite lookup_insert_eq.
    + intros [[? [=]]|[? [=]]].
  - destruct Hcases as (-> & _ & Hr). rewrite Hr.
    split_and!; [done|discriminate|by eauto].
Qed.

(** X6: what [save] wrote, [load] reads back.  On a healthy cluster,
    if the payload of [s] encodes to [buf] and [buf] decodes into the
    payload of [s0] as the payload of [s], then after [save c s] a
    [load] for the same identifier succeeds and leaves [s0] with the
    payload of [s]. *)
Theorem save_then_load c s s0 σ o buf :
  read σ (s_Options s) = Some o ->
  healthy (cluster σ) ->
  ID s0 = ID s ->
  gob_Encode (next_order σ) (Values s) = inl buf ->
  gob_Decode buf (Values s0) = (Values s, None) ->
  ∃ σ1 σ2,
    save c s σ = Done None σ1
    ∧ load c s0 σ1 = Done (setValues (Values s) s0, None) σ2.
Proof.
  intros Ho Hh Hid Henc Hdec. unfold healthy, faults in Hh.
  injection Hh as Hc Hs Hx.
  destruct (save_full c s σ o Ho)
    as (err & ops & σ1 & Hsave & _ & _ & Hf & _ & Hcases).
  rewrite Hc, Henc, Hx in Hcases. cbn in Hcases.
  destruct Hcases as (_ & -> & Hr).
  unfold faults in Hf. rewrite Hc, Hs, Hx in Hf. injection Hf as Hc1 Hs1 Hx1.
  destruct (load_full c s0 σ1)
    as (s' & err & ops' & σ2 & Hload & _ & _ & _ & _ & _ & Hcases).
  rewrite Hc1, Hs1, Hr, Hid, lookup_insert_eq, Hdec in Hcases.
  destruct Hcases as (_ & -> & ->).
  by exists σ1, σ2.
Qed.

End helper_properties.

(** ** New *)

(** The payload decoder of the scenario fails with one error only. *)
Lemma decodeEntries_error fuel bs m :
  (standin.decodeEntries fuel bs m).2 = None
  ∨ (standin.decodeEntries fuel bs m).2 = Some standin.errEOF.
Proof.
  revert bs m. induction fuel as [|fuel IH]; intros [|lk bs1] m; cbn; auto.
  destruct (drop (Byte.to_nat lk) bs1) as [|lv bs2]; cbn; auto.
  destruct (decide _); cbn; auto.
Qed.

Lemma pairsGob_no_sentinel b m :
  (gob_Decode (Gob := standin.pairsGob) b m).2 ≠ Some ErrNotFound.
Proof.
  cbn. unfold standin.pairsDecode.
  destruct (decodeEntries_error (List.length b) b m) as [-> | ->]; discriminate.
Qed.

Section New_properties.

Context `{Gob}.

(** X7: when the cookie decodes, the session [New] returns carries the
    decoded identifier and the requested name, whatever [load] did:
    also a session whose record could not be read keeps the identifier
    of its cookie. *)
Theorem New_keeps_cookie_identifier c r name σ o v id :
  read σ (c_Options c) = Some o ->
  http.Request_Cookie r name = inl v ->
  securecookie.DecodeMulti name v (Codecs c) = inl id ->
  ∃ s σ', New c r name σ = Done (s, None) σ'
          ∧ ID s = id ∧ Name s = name
          ∧ read σ' (s_Options s) = Some o.
Proof.
  intros Ho Hv Hd.
  destruct (load_runs c (New_session id name σ) (New_heap o σ))
    as (s1 & err & σ1 & Hl & Hh & _ & _ & Hid & Hp & _ & Hn).
  rewrite (New_identifier c r name σ o v id s1 err σ1 Ho Hv Hd Hl).
  eexists _, _. split; [reflexivity|].
  assert (Hr : read σ1 (s_Options s1) = Some o).
  { unfold read. rewrite Hp, Hh. cbn. by rewrite lookup_insert_eq. }
  by destruct (decide _).
Qed.

(** X8: [New] never writes and never draws entropy.  The rows are as
    before; the cluster is contacted only when the cookie decodes, and
    then by the calls of one [load] for the decoded identifier. *)
Theorem New_storage_footprint c r name σ o :
  read σ (c_Options c) = Some o ->
  ∃ s σ', New c r name σ = Done (s, None) σ'
    ∧ rows (cluster σ') = rows (cluster σ)
    ∧ entropy σ' = entropy σ
    ∧ issued σ σ'
      = match http.Request_Cookie r name with
        | inr _ => []
        | inl v =>
            match securecookie.DecodeMulti name v (Codecs c) with
            | inr _ => []
            | inl id =>
                match connect_fault (cluster σ) with
                | Some _ => [OpCreateSession]
                | None => load_ops c id
                end
            end
        end.
Proof.
  intros Ho.
  assert (Hnone : issued σ (New_heap o σ) = [])
    by (unfold issued; cbn; apply drop_all).
  destruct (http.Request_Cookie r name) as [v|e] eqn:Hv;
    [destruct (securecookie.DecodeMulti name v (Codecs c)) as [id|e] eqn:Hd|].
  - destruct (load_full c (New_session id name σ) (New_heap o σ))
      as (s1 & err & ops & σ1 & Hl & _ & He & _ & Hr & Hlog & Hcases).
    rewrite (New_identifier c r name σ o v id s1 err σ1 Ho Hv Hd Hl).
    eexists _, _. split; [reflexivity|]. split; [exact Hr|]. split; [exact He|].
    rewrite (issued_app σ σ1 ops Hlog). cbn in Hcases.
    destruct (connect_fault (cluster σ)); [by destruct Hcases as (_ & _ & ->)|].
    by destruct Hcases as [-> _].
  - rewrite (New_no_identifier c r name σ o Ho); [by eauto 8|].
    intros v' id' Hv' Hd'. congruence.
  - rewrite (New_no_identifier c r name σ o Ho); [by eauto 8|].
    intros v' id' Hv' Hd'. congruence.
Qed.

(** X9: with a payload decoder that never returns [gocql.ErrNotFound],
    the session of a decoded cookie has [IsNew = true] exactly when
    [load] returned [nil]: the comparison with [gocql.ErrNotFound] in
    [New] never holds, because [load] wraps every error of the
    cluster. *)
Theorem New_IsNew_iff_load_succeeded c r name σ o v id s1 errLoad σ1 :
  (∀ b m, (gob_Decode b m).2 ≠ Some ErrNotFound) ->
  read σ (c_Options c) = Some o ->
  http.Request_Cookie r name = inl v ->
  securecookie.DecodeMulti name v (Codecs c) = inl id ->
  load c (New_session id name σ) (New_heap o σ) = Done (s1, errLoad) σ1 ->
  ∃ s, New c r name σ = Done (s, None) σ1
       ∧ (IsNew s = true ↔ errLoad = None).
Proof.
  intros Hgob Ho Hv Hd Hl.
  rewrite (New_identifier c r name σ o v id s1 errLoad σ1 Ho Hv Hd Hl).
  eexists; split; [reflexivity|].
  destruct (load_runs c (New_session id name σ) (New_heap o σ))
    as (s' & err & σ' & Hl' & _ & _ & _ & _ & _ & Hnew & _).
  rewrite Hl in Hl'. injection Hl' as <- _ _. cbn in Hnew.
  destruct errLoad as [e|].
  - destruct (decide (e = ErrNotFound)) as [->|Hne].
    + destruct (load_ErrNotFound _ _ _ _ _ Hl) as (vals & ttl & _ & Hbad).
      by destruct (Hgob _ _ Hbad).
    + destruct (decide _) as [_|Hno]; [by split|].
      destruct Hno. split; congruence.
  - destruct (decide _) as [[Hne _]|_]; [by destruct Hne|by rewrite Hnew].
Qed.

(** X10: when the record of the decoded identifier is read, the
    payload of the session [New] returns is whatever the decoder left
    in the empty map it was given, and the error of [New] is [nil]
    also when the decoder reported one. *)
Theorem New_payload_is_decoder_output c r name σ o v id vals ttl :
  read σ (c_Options c) = Some o ->
  http.Request_Cookie r name = inl v ->
  securecookie.DecodeMulti name v (Codecs c) = inl id ->
  connect_fault (cluster σ) = None ->
  scan_fault (cluster σ) = None ->
  rows (cluster σ) !! (TableName c, id) = Some (vals, ttl) ->
  ∃ s σ', New c r name σ = Done (s, None) σ'
          ∧ Values s = (gob_Decode vals ∅).1
          ∧ (IsNew s = false ↔
             is_Some (gob_Decode vals ∅).2
             ∧ (gob_Decode vals ∅).2 ≠ Some ErrNotFound).
Proof.
  intros Ho Hv Hd Hc Hs Hr.
  destruct (load_full c (New_session id name σ) (New_heap o σ))
    as (s1 & err & ops & σ1 & Hl & _ & _ & _ & _ & _ & Hcases).
  cbn in Hcases. rewrite Hc, Hs, Hr in Hcases.
  destruct Hcases as (_ & -> & ->).
  rewrite (New_identifier c r name σ o v id _ _ σ1 Ho Hv Hd Hl).
  eexists _, _. split; [reflexivity|].
  destruct (decide _) as [[Hne Hnf]|Hno]; cbn.
  - split; [done|]. split; [|done]. intros _. split; [|done].
    by destruct (gob_Decode vals ∅).2.
  - split; [done|]. split; [done|]. intros [[e He] Hnf]. destruct Hno.
    split; [by rewrite He|done].
Qed.

End New_properties.

(** ** Save *)

Lemma encodeChar_inAlphabet v : inAlphabet (base32.encodeChar v).
Proof.
  unfold inAlphabet, base32.encodeChar.
  pose proof (land31_bound v) as Hb.
  assert (Hn : (Z.to_nat (Z.land v 31) < 32)%nat) by lia.
  remember (Z.to_nat (Z.land v 31)) as n eqn:En. clear En Hb.
  destruct (String.get n base32.encodeStd) as [ch|] eqn:Hg; [by exists n|].
  do 32 (destruct n as [|n]; [discriminate Hg|]). lia.
Qed.

Lemma allChars_str_app P (l : list ascii) s :
  Forall P l -> allChars P s -> allChars P (base32.str l +:+ s).
Proof.
  intros Hl Hs. unfold allChars.
  induction Hl as [|ch l Hch _ IH]; [exact Hs|].
  change (base32.str (ch :: l) +:+ s) with (String ch (base32.str l +:+ s)).
  cbn. by constructor.
Qed.

(** The identifier made from 32 bytes uses the alphabet only. *)
Lemma TrimRight_EncodeToString_32_alphabet (k : list byte) :
  List.length k = 32%nat ->
  allChars inAlphabet (strings.TrimRight (base32.EncodeToString k) "=").
Proof.
  intros Hk.
  do 32 (destruct k as [|? k]; [discriminate Hk|]).
  destruct k; [|discriminate Hk]. clear Hk.
  rewrite !EncodeToString_block, EncodeToString_two.
  rewrite !TrimRight_data by apply encodeChars_notPadding.
  repeat (apply allChars_str_app;
          [apply Forall_map, Forall_forall; intros v _;
           apply encodeChar_inAlphabet|]).
  by constructor.
Qed.

Section Save_properties.

Context `{Gob}.

(** The deleting path of [Save]. *)
Lemma Save_delete_run c r w s σ o :
  read σ (s_Options s) = Some o ->
  MaxAge o < 0 ->
  Save c r w s σ = Done (None, w ++ [cookie_of (Name s) "" o], s) σ.
Proof.
  intros Ho Hage. unfold Save, deref. run. rewrite Ho.
  destruct (decide (MaxAge o < 0)); [|lia].
  by rewrite (NewCookie_run _ _ _ _ o Ho).
Qed.

(** Without 32 bytes of entropy the key is [nil] and the identifier
    stays empty. *)
Lemma Save_identifier_dry s σ :
  ID s = "" -> (List.length (entropy σ) < 32)%nat ->
  Save_identifier s σ = Done s (set_entropy [] σ).
Proof.
  intros Hid Hlen. unfold Save_identifier, securecookie.GenerateRandomKey. run.
  destruct (decide (ID s = "")); [|done].
  destruct (decide _); [lia|]. cbn. destruct s; cbn in *. by subst.
Qed.

(** The block that makes the identifier walks no map. *)
Lemma Save_identifier_orders s σ s1 σ1 :
  Save_identifier s σ = Done s1 σ1 -> next_order σ1 = next_order σ.
Proof.
  unfold Save_identifier, securecookie.GenerateRandomKey. run.
  destruct (decide (ID s = "")); [|by intros [= _ <-]].
  destruct (decide _); by intros [= _ <-].
Qed.

(** [Save] on a session that is not being deleted, with everything
    the two steps leave in place. *)
Lemma Save_run c r w s σ o oc :
  read σ (s_Options s) = Some o ->
  read σ (c_Options c) = Some oc ->
  0 <= MaxAge o ->
  ∃ s1 σ1 err ops σ2,
    Save_identifier s σ = Done s1 σ1
    ∧ save c s1 σ1 = Done err σ2
    ∧ heap σ2 = heap σ
    ∧ Values s1 = Values s ∧ s_Options s1 = s_Options s
    ∧ Name s1 = Name s ∧ IsNew s1 = IsNew s
    ∧ faults (cluster σ2) = faults (cluster σ)
    ∧ oplog (cluster σ2) = oplog (cluster σ) ++ ops
    ∧ match connect_fault (cluster σ) with
      | Some e =>
          err = Some (wrapErr e) ∧ ops = [OpCreateSession]
          ∧ rows (cluster σ2) = rows (cluster σ)
      | None =>
          match gob_Encode (next_order σ) (Values s) with
          | inr e =>
              err = Some (wrapErr e) ∧ ops = [OpCreateSession; OpClose]
              ∧ rows (cluster σ2) = rows (cluster σ)
          | inl buf =>
              ops = save_ops c (ID s1) buf (MaxAge o)
              ∧ err = exec_fault (cluster σ)
              ∧ rows (cluster σ2)
                = (if bool_decide (is_Some (exec_fault (cluster σ)))
                      && negb (fault_applied (cluster σ))
                   then rows (cluster σ)
                   else <[(TableName c, ID s1) := (buf, MaxAge o)]>
                          (rows (cluster σ)))
          end
      end
    ∧ Save c r w s σ
      = match err with
        | Some e => Done (Some (wrapErr e), w, s1) σ2
        | None =>
            match securecookie.EncodeMulti (Name s1) (ID s1) (Codecs c) with
            | inr e => Done (Some (wrapErr e), w, s1) σ2
            | inl encoded =>
                Done (None, w ++ [cookie_of (Name s1) encoded oc], s1) σ2
            end
        end.
Proof.
  intros Ho Hoc Hage.
  destruct (Save_identifier_runs s σ)
    as (s1 & σ1 & Hid & Hh1 & Hcl1 & Hp1 & Hv1 & Hn1 & Hnew1).
  assert (Ho1 : read σ1 (s_Options s1) = Some o)
    by (unfold read in *; by rewrite Hp1, Hh1).
  destruct (save_full c s1 σ1 o Ho1)
    as (err & ops & σ2 & Hsave & Hh2 & _ & Hf & Hlog & Hcases).
  rewrite (Save_identifier_orders s σ s1 σ1 Hid) in Hcases.
  rewrite Hcl1, Hv1 in *.
  exists s1, σ1, err, ops, σ2.
  split_and!; try done; [congruence|].
  rewrite (Save_steps c r w s σ o s1 σ1 err σ2 Ho Hage Hid Hsave).
  assert (Hoc2 : read σ2 (c_Options c) = Some oc)
    by (unfold read in *; by rewrite Hh2, Hh1).
  by rewrite Hoc2.
Qed.

End Save_properties.

Section Save_extras.

Context `{Gob}.

(** X11: what [Save] leaves alone.  It never changes an options
    object; of the session it changes at most the identifier; it
    appends one cookie named after the session exactly when it returns
    [nil] and none otherwise; and every row other than the one of the
    session's identifier on the store's table is as before. *)
Theorem Save_frame c r w s σ o oc :
  read σ (s_Options s) = Some o ->
  read σ (c_Options c) = Some oc ->
  ∃ err w' s' σ',
    Save c r w s σ = Done (err, w', s') σ'
    ∧ heap σ' = heap σ
    ∧ Values s' = Values s ∧ s_Options s' = s_Options s
    ∧ Name s' = Name s ∧ IsNew s' = IsNew s
    ∧ (err = None -> ∃ ck, w' = w ++ [ck] ∧ ck_Name ck = Name s)
    ∧ (is_Some err -> w' = w)
    ∧ ∀ k, k ≠ (TableName c, ID s') ->
           rows (cluster σ') !! k = rows (cluster σ) !! k.
Proof.
  intros Ho Hoc.
  destruct (decide (MaxAge o < 0)) as [Hneg|Hpos].
  { rewrite (Save_delete_run c r w s σ o Ho Hneg).
    eexists _, _, _, _. split; [reflexivity|].
    split_and!; try done; by eauto. }
  destruct (Save_run c r w s σ o oc Ho Hoc ltac:(lia))
    as (s1 & σ1 & err & ops & σ2 & _ & _ & Hh & Hv & Hp & Hn & Hnew & _ & _
        & Hcases & ->).
  assert (Hrows : ∀ k, k ≠ (TableName c, ID s1) ->
                       rows (cluster σ2) !! k = rows (cluster σ) !! k).
  { intros k Hk.
    destruct (connect_fault (cluster σ)); [by destruct Hcases as (_ & _ & ->)|].
    destruct (gob_Encode (next_order σ) (Values s)); [|by destruct Hcases as (_ & _ & ->)].
    destruct Hcases as (_ & _ & ->).
    destruct (_ && _); [done|]. by rewrite lookup_insert_ne. }
  destruct err as [e|];
    [|destruct (securecookie.EncodeMulti _ _ _) as [encoded|e]];
    (eexists _, _, _, _; split; [reflexivity|]; split_and!; try done).
  intros _. eexists. split; [reflexivity|]. exact Hn.
Qed.

(** X12: a session that has an identifier keeps it: [Save] returns the
    session unchanged and reads no entropy. *)
Theorem Save_keeps_identifier c r w s σ o oc :
  read σ (s_Options s) = Some o ->
  read σ (c_Options c) = Some oc ->
  ID s ≠ "" ->
  ∃ err w' σ',
    Save c r w s σ = Done (err, w', s) σ' ∧ entropy σ' = entropy σ.
Proof.
  intros Ho Hoc Hid.
  destruct (decide (MaxAge o < 0)) as [Hneg|Hpos].
  { rewrite (Save_delete_run c r w s σ o Ho Hneg). by eauto. }
  pose proof (Save_identifier_kept s σ Hid) as Hkept.
  destruct (save_full c s σ o Ho)
    as (err & ops & σ2 & Hsave & Hh & He & _).
  rewrite (Save_steps c r w s σ o s σ err σ2 Ho ltac:(lia) Hkept Hsave).
  assert (Hoc2 : read σ2 (c_Options c) = Some oc)
    by (unfold read in *; by rewrite Hh).
  rewrite Hoc2.
  destruct err as [e|];
    [|destruct (securecookie.EncodeMulti _ _ _) as [encoded|e]]; by eauto.
Qed.

(** X13: when the entropy source cannot give 32 bytes, [Save] does not
    stop: the identifier stays empty and the INSERT is issued under the
    empty identifier. *)
Theorem Save_without_entropy_writes_empty_identifier c r w s σ o oc buf :
  read σ (s_Options s) = Some o ->
  read σ (c_Options c) = Some oc ->
  0 <= MaxAge o ->
  ID s = "" ->
  (List.length (entropy σ) < 32)%nat ->
  connect_fault (cluster σ) = None ->
  gob_Encode (next_order σ) (Values s) = inl buf ->
  ∃ err w' σ',
    Save c r w s σ = Done (err, w', s) σ'
    ∧ issued σ σ'
      = [OpCreateSession;
         OpExec (insertCQL (TableName c)) "" buf (MaxAge o);
         OpClose].
Proof.
  intros Ho Hoc Hage Hid Hlen Hc Henc.
  pose proof (Save_identifier_dry s σ Hid Hlen) as Hdry.
  destruct (save_full c s (set_entropy [] σ) o Ho)
    as (err & ops & σ2 & Hsave & Hh & _ & _ & Hlog & Hcases).
  unfold next_order in *. cbn in Hcases. rewrite Hc, Henc, Hid in Hcases.
  destruct Hcases as (-> & _ & _).
  rewrite (Save_steps c r w s σ o s _ err σ2 Ho Hage Hdry Hsave).
  assert (Hoc2 : read σ2 (c_Options c) = Some oc)
    by (unfold read in *; by rewrite Hh).
  rewrite Hoc2.
  assert (Hiss : issued σ σ2 = save_ops c "" buf (MaxAge o))
    by (by apply issued_app).
  destruct err as [e|];
    [|destruct (securecookie.EncodeMulti _ _ _) as [encoded|e]]; by eauto.
Qed.

(** X14: an identifier that [Save] generates consists of characters of
    the base-32 alphabet A-Z, 2-7 only. *)
Theorem Save_identifier_alphabet c r w s σ o oc :
  read σ (s_Options s) = Some o ->
  read σ (c_Options c) = Some oc ->
  0 <= MaxAge o ->
  ID s = "" ->
  (32 ≤ List.length (entropy σ))%nat ->
  ∃ err w' s' σ',
    Save c r w s σ = Done (err, w', s') σ'
    ∧ allChars inAlphabet (ID s').
Proof.
  intros Ho Hoc Hage Hid Hlen.
  destruct (Save_run c r w s σ o oc Ho Hoc Hage)
    as (s1 & σ1 & err & ops & σ2 & Hmk & _ & _ & _ & _ & _ & _ & _ & _ & _ & ->).
  rewrite (Save_identifier_made s σ Hid Hlen) in Hmk.
  injection Hmk as <- _.
  assert (Hal : allChars inAlphabet
                  (strings.TrimRight
                     (base32.EncodeToString (take 32 (entropy σ))) "=")).
  { apply TrimRight_EncodeToString_32_alphabet. rewrite length_take. lia. }
  destruct err as [e|];
    [|destruct (securecookie.EncodeMulti _ _ _) as [encoded|e]]; by eauto 8.
Qed.

(** X15: the text of the error [Save] returns.  An error of
    [CreateSession] or of the payload encoder is wrapped by [save] and
    again by [Save], so its text starts with the prefix twice; an
    error of the INSERT or of the cookie codecs is wrapped once; in
    every other case [Save] returns [nil]. *)
Theorem Save_error_text c r w s σ o oc :
  read σ (s_Options s) = Some o ->
  read σ (c_Options c) = Some oc ->
  0 <= MaxAge o ->
  ∃ err w' s' σ',
    Save c r w s σ = Done (err, w', s') σ'
    ∧ err
      = match connect_fault (cluster σ), gob_Encode (next_order σ) (Values s),
              exec_fault (cluster σ) with
        | Some e, _, _ | None, inr e, _ =>
            Some (Errorf ("cassandrastore: cassandrastore: " +:+ Error e))
        | None, inl _, Some e =>
            Some (Errorf ("cassandrastore: " +:+ Error e))
        | None, inl _, None =>
            match securecookie.EncodeMulti (Name s) (ID s') (Codecs c) with
            | inr e => Some (Errorf ("cassandrastore: " +:+ Error e))
            | inl _ => None
            end
        end.
Proof.
  intros Ho Hoc Hage.
  destruct (Save_run c r w s σ o oc Ho Hoc Hage)
    as (s1 & σ1 & err & ops & σ2 & _ & _ & _ & _ & _ & Hn & _ & _ & _
        & Hcases & ->).
  destruct (connect_fault (cluster σ)) as [e|].
  { destruct Hcases as (-> & _). by eauto 8. }
  destruct (gob_Encode (next_order σ) (Values s)) as [buf|e].
  - destruct Hcases as (_ & -> & _).
    destruct (exec_fault (cluster σ)) as [e|]; [by eauto 8|].
    rewrite <- Hn.
    destruct (securecookie.EncodeMulti _ _ _) as [encoded|e] eqn:Henc;
      eexists _, _, _, _; (split; [reflexivity|]); cbn; by rewrite Henc.
  - destruct Hcases as (-> & _). by eauto 8.
Qed.

(** X16: [Save] writes the row before it encodes the identifier, so
    when no codec can encode it (a store made without key pairs, say)
    [Save] returns an error and sets no cookie, but the row is
    stored. *)
Theorem Save_row_written_before_encoding c r w s σ o oc buf e :
  read σ (s_Options s) = Some o ->
  read σ (c_Options c) = Some oc ->
  0 <= MaxAge o ->
  ID s ≠ "" ->
  healthy (cluster σ) ->
  gob_Encode (next_order σ) (Values s) = inl buf ->
  securecookie.EncodeMulti (Name s) (ID s) (Codecs c) = inr e ->
  ∃ σ',
    Save c r w s σ
    = Done (Some (Errorf ("cassandrastore: " +:+ Error e)), w, s) σ'
    ∧ rows (cluster σ') !! (TableName c, ID s) = Some (buf, MaxAge o).
Proof.
  intros Ho Hoc Hage Hid Hh Henc Hcodec. unfold healthy, faults in Hh.
  injection Hh as Hc _ Hx.
  pose proof (Save_identifier_kept s σ Hid) as Hkept.
  destruct (save_full c s σ o Ho)
    as (err & ops & σ2 & Hsave & _ & _ & _ & _ & Hcases).
  rewrite Hc, Henc, Hx in Hcases. cbn in Hcases.
  destruct Hcases as (_ & -> & Hr).
  rewrite (Save_steps c r w s σ o s σ None σ2 Ho Hage Hkept Hsave), Hcodec.
  exists σ2. split; [reflexivity|]. by rewrite Hr, lookup_insert_eq.
Qed.

End Save_extras.

(** ** Save, then New *)

Section Save_New.

Context `{Gob}.

(** X17: the cookie [Save] sets leads [New] back to what was saved.
    On a healthy cluster, with a payload that survives the encoder and
    the decoder and codecs that decode what they encode, a later
    request that carries the cookie gets a session with the saved
    identifier and the saved payload; its [IsNew] is [true]. *)
Theorem Save_then_New c r w s σ o oc buf :
  read σ (s_Options s) = Some o ->
  read σ (c_Options c) = Some oc ->
  0 <= MaxAge o ->
  Name s ≠ "" ->
  healthy (cluster σ) ->
  gob_Encode (next_order σ) (Values s) = inl buf ->
  gob_Decode buf ∅ = (Values s, None) ->
  (∀ id, ∃ v, securecookie.EncodeMulti (Name s) id (Codecs c) = inl v
              ∧ securecookie.DecodeMulti (Name s) v (Codecs c) = inl id) ->
  ∃ ck s' σ' s2 σ'',
    Save c r w s σ = Done (None, w ++ [ck], s') σ'
    ∧ New c (request_with ck) (Name s) σ' = Done (s2, None) σ''
    ∧ ID s2 = ID s' ∧ Values s2 = Values s ∧ IsNew s2 = true.
Proof.
  intros Ho Hoc Hage Hname Hh Henc Hdec Hcodec.
  unfold healthy in Hh. pose proof Hh as Hh'. unfold faults in Hh'.
  injection Hh' as Hc Hs Hx.
  destruct (Save_run c r w s σ o oc Ho Hoc Hage)
    as (s1 & σ1 & err & ops & σ2 & _ & _ & Hheap & _ & _ & Hn & _ & Hf & _
        & Hcases & ->).
  rewrite Hc, Henc, Hx in Hcases. cbn in Hcases.
  destruct Hcases as (_ & -> & Hr).
  destruct (Hcodec (ID s1)) as (v & Hv & Hback).
  rewrite Hn, Hv.
  set (ck := cookie_of (Name s) v oc).
  assert (Hoc2 : read σ2 (c_Options c) = Some oc)
    by (unfold read in *; by rewrite Hheap).
  assert (Hcookie : http.Request_Cookie (request_with ck) (Name s) = inl v).
  { unfold http.Request_Cookie, request_with. cbn.
    destruct (decide (Name s = "")); [done|]. by destruct (decide _). }
  destruct (load_full c (New_session (ID s1) (Name s) σ2) (New_heap oc σ2))
    as (s2 & err & ops' & σ3 & Hl & _ & _ & _ & _ & _ & Hcases).
  cbn in Hcases. rewrite Hh in Hf. unfold faults in Hf.
  injection Hf as Hc2 Hs2 _.
  rewrite Hc2, Hs2, Hr, lookup_insert_eq, Hdec in Hcases.
  destruct Hcases as (_ & -> & ->).
  exists ck, s1, σ2. eexists _, σ3. split; [reflexivity|].
  rewrite (New_identifier c _ _ σ2 oc v (ID s1) _ _ σ3 Hoc2 Hcookie Hback Hl).
  destruct (decide _) as [[Hne _]|_]; [by destruct Hne|]. by cbn.
Qed.

End Save_New.

(** ** The tagging codec decodes what it encodes *)

Lemma prefix_app t s : String.prefix t (t +:+ s) = true.
Proof.
  induction t as [|ch t IH]; [by destruct s|].
  change (String ch t +:+ s) with (String ch (t +:+ s)). cbn.
  by destruct (ascii_dec ch ch).
Qed.

Lemma length_app_string t s :
  String.length (t +:+ s) = (String.length t + String.length s)%nat.
Proof.
  induction t as [|ch t IH]; [reflexivity|].
  change (String ch t +:+ s) with (String ch (t +:+ s)). cbn. by rewrite IH.
Qed.

Lemma substring_all s : String.substring 0 (String.length s) s = s.
Proof. induction s as [|ch s IH]; [reflexivity|]. cbn. by rewrite IH. Qed.

Lemma substring_app t s :
  String.substring (String.length t) (String.length s) (t +:+ s) = s.
Proof.
  induction t as [|ch t IH]; [apply substring_all|].
  change (String ch t +:+ s) with (String ch (t +:+ s)). exact IH.
Qed.

Lemma tagCodec_roundtrip key name id :
  key ≠ "" ->
  ∃ v, securecookie.EncodeMulti name id [standin.tagCodec key] = inl v
       ∧ securecookie.DecodeMulti name v [standin.tagCodec key] = inl id.
Proof.
  intros Hkey. exists (standin.tag key name +:+ id). cbn.
  unfold standin.tagEncode, standin.tagDecode.
  destruct (decide (key = "")); [done|]. split; [reflexivity|].
  rewrite prefix_app, length_app_string.
  replace (String.length (standin.tag key name) + String.length id
           - String.length (standin.tag key name))%nat
    with (String.length id) by lia.
  by rewrite substring_app.
Qed.

(** ** Instances of the further properties *)

Lemma load_failure_wrapped_witness :
  ∃ msg σ',
    load (H := standin.pairsGob) scenario.store edge.blank_session
         scenario.unreachable
    = Done (edge.blank_session, Some (Errorf ("cassandrastore: " +:+ msg))) σ'.
Proof.
  apply (load_failure_wrapped (H := standin.pairsGob) scenario.store
           edge.blank_session scenario.unreachable).
  left. eexists. reflexivity.
Defined.

Lemma save_calls_witness :
  ∃ err σ',
    save (H := standin.pairsGob) scenario.store edge.known_session
         scenario.serving = Done err σ'
    ∧ issued scenario.serving σ'
      = [OpCreateSession;
         OpExec "INSERT INTO sessions (id, values) VALUES (?, ?) USING TTL ?"
                "GAYTEMZU" edge.alice_blob 3600;
         OpClose].
Proof.
  destruct (save_calls (H := standin.pairsGob) scenario.store
              edge.known_session scenario.serving
              (mkOptions "/" "" 3600 false false))
    as (err & σ' & Hs & Hi).
  - reflexivity.
  - exists err, σ'. split; [exact Hs|]. rewrite Hi. vm_compute. reflexivity.
Defined.

(** The cluster cannot be reached: an error, and no row has changed. *)
Lemma save_upserts_one_row_witness :
  ∃ err σ',
    save (H := standin.pairsGob) scenario.store edge.known_session
         scenario.unreachable = Done err σ'
    ∧ is_Some err
    ∧ rows (cluster σ') = rows (cluster scenario.unreachable).
Proof.
  destruct (save_upserts_one_row (H := standin.pairsGob) scenario.store
              edge.known_session scenario.unreachable
              (mkOptions "/" "" 3600 false false))
    as (err & σ' & Hs & _ & _ & Hfail).
  - reflexivity.
  - exists err, σ'. split; [exact Hs|]. apply Hfail. left. eexists. reflexivity.
Defined.

(** An INSERT that timed out and was applied all the same: [save]
    returns the error, and the row is there. *)
Example save_error_with_row_written :
  ∃ σ',
    save (H := standin.pairsGob) scenario.store edge.known_session
         edge.late_write = Done (Some edge.write_timeout) σ'
    ∧ rows (cluster σ') !! ("sessions", "GAYTEMZU")
      = Some (edge.alice_blob, 3600).
Proof. eexists. split; vm_compute; reflexivity. Qed.

Lemma save_then_load_witness :
  ∃ σ1 σ2,
    save (H := standin.pairsGob) scenario.store edge.known_session
         scenario.serving = Done None σ1
    ∧ load (H := standin.pairsGob) scenario.store edge.blank_session σ1
      = Done (setValues {[ "user" := "alice" ]} edge.blank_session, None) σ2.
Proof.
  apply (save_then_load (H := standin.pairsGob) scenario.store
           edge.known_session edge.blank_session scenario.serving
           (mkOptions "/" "" 3600 false false) edge.alice_blob).
  - reflexivity.
  - reflexivity.
  - reflexivity.
  - vm_compute. reflexivity.
  - vm_compute. reflexivity.
Defined.

(** The cluster cannot be reached: the session still carries the
    identifier of the cookie. *)
Lemma New_keeps_cookie_identifier_witness :
  ∃ s σ',
    New (H := standin.pairsGob) scenario.store scenario.unknown "sess"
        scenario.unreachable = Done (s, None) σ'
    ∧ ID s = "NEVERSTORED" ∧ Name s = "sess"
    ∧ read σ' (s_Options s) = Some (mkOptions "/" "" 3600 false false).
Proof.
  apply (New_keeps_cookie_identifier (H := standin.pairsGob) scenario.store
           scenario.unknown "sess" scenario.unreachable
           (mkOptions "/" "" 3600 false false) "k1|sess|NEVERSTORED").
  - reflexivity.
  - reflexivity.
  - reflexivity.
Defined.

Lemma New_storage_footprint_witness :
  ∃ s σ',
    New (H := standin.pairsGob) scenario.store scenario.unknown "sess"
        scenario.ready = Done (s, None) σ'
    ∧ rows (cluster σ') = rows (cluster scenario.ready)
    ∧ entropy σ' = entropy scenario.ready
    ∧ issued scenario.ready σ'
      = [OpCreateSession;
         OpQuery "SELECT values FROM sessions WHERE id = ?" "NEVERSTORED";
         OpClose].
Proof.
  apply (New_storage_footprint (H := standin.pairsGob) scenario.store
           scenario.unknown "sess" scenario.ready
           (mkOptions "/" "" 3600 false false)).
  reflexivity.
Defined.

Lemma New_IsNew_iff_load_succeeded_witness :
  ∃ σ1 s,
    New (H := standin.pairsGob) scenario.store scenario.unknown "sess"
        scenario.ready = Done (s, None) σ1
    ∧ (IsNew s = true ↔ Some (Errorf "cassandrastore: not found") = None).
Proof.
  eexists.
  eapply (New_IsNew_iff_load_succeeded (H := standin.pairsGob) scenario.store
            scenario.unknown "sess" scenario.ready
            (mkOptions "/" "" 3600 false false)
            "k1|sess|NEVERSTORED" "NEVERSTORED").
  - exact pairsGob_no_sentinel.
  - reflexivity.
  - reflexivity.
  - reflexivity.
  - vm_compute. reflexivity.
Defined.

(** A record cut off after its first entry: no error from [New], and
    the entry that was read is in the payload. *)
Lemma New_payload_is_decoder_output_witness :
  ∃ s σ',
    New (H := standin.pairsGob) scenario.store scenario.unknown "sess"
        edge.corrupt = Done (s, None) σ'
    ∧ Values s = {[ "user" := "alice" ]}
    ∧ IsNew s = false.
Proof.
  destruct (New_payload_is_decoder_output (H := standin.pairsGob)
              scenario.store scenario.unknown "sess" edge.corrupt
              (mkOptions "/" "" 3600 false false)
              "k1|sess|NEVERSTORED" "NEVERSTORED" edge.cut_blob 3600)
    as (s & σ' & HN & HV & Hnew).
  - reflexivity.
  - reflexivity.
  - reflexivity.
  - reflexivity.
  - reflexivity.
  - reflexivity.
  - exists s, σ'. split; [exact HN|]. split.
    + rewrite HV. vm_compute. reflexivity.
    + apply Hnew. split; [eexists; vm_compute; reflexivity|].
      vm_compute. discriminate.
Defined.

Lemma Save_frame_witness :
  ∃ err w' s' σ',
    Save (H := standin.pairsGob) scenario.store (mkRequest []) []
         scenario.new_session scenario.serving = Done (err, w', s') σ'
    ∧ heap σ' = heap scenario.serving
    ∧ Values s' = ∅ ∧ s_Options s' = Some 2%positive
    ∧ Name s' = "sess" ∧ IsNew s' = true
    ∧ (err = None -> ∃ ck, w' = [] ++ [ck] ∧ ck_Name ck = "sess")
    ∧ (is_Some err -> w' = [])
    ∧ ∀ k, k ≠ ("sessions", ID s') ->
           rows (cluster σ') !! k = rows (cluster scenario.serving) !! k.
Proof.
  apply (Save_frame (H := standin.pairsGob) scenario.store (mkRequest []) []
           scenario.new_session scenario.serving
           (mkOptions "/" "" 3600 false false)
           (mkOptions "/" "" 3600 false false)).
  - reflexivity.
  - reflexivity.
Defined.

Lemma Save_keeps_identifier_witness :
  ∃ err w' σ',
    Save (H := standin.pairsGob) scenario.store (mkRequest []) []
         edge.known_session scenario.serving
    = Done (err, w', edge.known_session) σ'
    ∧ entropy σ' = entropy scenario.serving.
Proof.
  apply (Save_keeps_identifier (H := standin.pairsGob) scenario.store
           (mkRequest []) [] edge.known_session scenario.serving
           (mkOptions "/" "" 3600 false false)
           (mkOptions "/" "" 3600 false false)).
  - reflexivity.
  - reflexivity.
  - discriminate.
Defined.

Lemma Save_without_entropy_writes_empty_identifier_witness :
  ∃ err w' σ',
    Save (H := standin.pairsGob) scenario.store (mkRequest []) []
         scenario.new_session edge.dry
    = Done (err, w', scenario.new_session) σ'
    ∧ issued edge.dry σ'
      = [OpCreateSession;
         OpExec "INSERT INTO sessions (id, values) VALUES (?, ?) USING TTL ?"
                "" [] 3600;
         OpClose].
Proof.
  apply (Save_without_entropy_writes_empty_identifier
           (H := standin.pairsGob) scenario.store (mkRequest []) []
           scenario.new_session edge.dry
           (mkOptions "/" "" 3600 false false)
           (mkOptions "/" "" 3600 false false) []).
  - reflexivity.
  - reflexivity.
  - cbn. lia.
  - reflexivity.
  - cbn. lia.
  - reflexivity.
  - reflexivity.
Defined.

Lemma Save_identifier_alphabet_witness :
  ∃ err w' s' σ',
    Save (H := standin.pairsGob) scenario.store (mkRequest []) []
         scenario.new_session scenario.serving = Done (err, w', s') σ'
    ∧ allChars inAlphabet (ID s').
Proof.
  apply (Save_identifier_alphabet (H := standin.pairsGob) scenario.store
           (mkRequest []) [] scenario.new_session scenario.serving
           (mkOptions "/" "" 3600 false false)
           (mkOptions "/" "" 3600 false false)).
  - reflexivity.
  - reflexivity.
  - cbn. lia.
  - reflexivity.
  - cbn. lia.
Defined.

(** An unreachable cluster: the prefix appears twice. *)
Lemma Save_error_text_witness :
  ∃ w' s' σ',
    Save (H := standin.pairsGob) scenario.store (mkRequest []) []
         scenario.new_session scenario.unreachable
    = Done (Some (Errorf
                    "cassandrastore: cassandrastore: gocql: no hosts available"),
            w', s') σ'.
Proof.
  destruct (Save_error_text (H := standin.pairsGob) scenario.store
              (mkRequest []) [] scenario.new_session scenario.unreachable
              (mkOptions "/" "" 3600 false false)
              (mkOptions "/" "" 3600 false false))
    as (err & w' & s' & σ' & HS & Herr).
  - reflexivity.
  - reflexivity.
  - cbn. lia.
  - exists w', s', σ'. rewrite HS, Herr. reflexivity.
Defined.

(** A store without codecs: the row is written, then [Save] fails. *)
Lemma Save_row_written_before_encoding_witness :
  ∃ σ',
    Save (H := standin.pairsGob) edge.keyless (mkRequest []) []
         edge.known_session scenario.serving
    = Done (Some (Errorf "cassandrastore: securecookie: no codecs provided"),
            [], edge.known_session) σ'
    ∧ rows (cluster σ') !! ("sessions", "GAYTEMZU")
      = Some (edge.alice_blob, 3600).
Proof.
  apply (Save_row_written_before_encoding (H := standin.pairsGob)
           edge.keyless (mkRequest []) [] edge.known_session scenario.serving
           (mkOptions "/" "" 3600 false false)
           (mkOptions "/" "" 3600 false false)
           edge.alice_blob securecookie.errNoCodecs).
  - reflexivity.
  - reflexivity.
  - cbn. lia.
  - discriminate.
  - reflexivity.
  - vm_compute. reflexivity.
  - reflexivity.
Defined.

Lemma Save_then_New_witness :
  ∃ ck s' σ' s2 σ'',
    Save (H := standin.pairsGob) scenario.store (mkRequest []) []
         edge.known_session scenario.serving
    = Done (None, [] ++ [ck], s') σ'
    ∧ New (H := standin.pairsGob) scenario.store (request_with ck) "sess" σ'
      = Done (s2, None) σ''
    ∧ ID s2 = ID s' ∧ Values s2 = {[ "user" := "alice" ]}
    ∧ IsNew s2 = true.
Proof.
  apply (Save_then_New (H := standin.pairsGob) scenario.store (mkRequest [])
           [] edge.known_session scenario.serving
           (mkOptions "/" "" 3600 false false)
           (mkOptions "/" "" 3600 false false) edge.alice_blob).
  - reflexivity.
  - reflexivity.
  - cbn. lia.
  - discriminate.
  - reflexivity.
  - vm_compute. reflexivity.
  - vm_compute. reflexivity.
  - intros id. apply tagCodec_roundtrip. discriminate.
Defined.

(** ** Operations in sequence *)

Section sequences.

Context `{Gob}.

(** X19: on a store just made by [NewCassandraStore], [New] succeeds
    for every request and name, and the session's own options are path
    "/" and a max-age of 2592000 seconds. *)
Theorem New_on_new_store CodecsFromPairs tableName keypairs r name σ :
  ∃ c σ' s σ'',
    NewCassandraStore CodecsFromPairs tableName keypairs σ = Done (c, None) σ'
    ∧ New c r name σ' = Done (s, None) σ''
    ∧ read σ'' (s_Options s) = Some (mkOptions "/" "" 2592000 false false)
    ∧ s_Options s ≠ c_Options c.
Proof.
  destruct (NewCassandraStore_defaults CodecsFromPairs tableName keypairs σ)
    as (c & σ' & Hmk & Ho & _).
  destruct (New_allocates c r name σ' _ Ho) as (s & σ'' & HN & Hp & Hh).
  exists c, σ', s, σ''. split; [exact Hmk|]. split; [exact HN|].
  assert (Hl : heap σ' !! fresh (dom (heap σ')) = None)
    by (apply not_elem_of_dom, is_fresh).
  split.
  - unfold read. rewrite Hp, Hh. cbn. by rewrite lookup_insert_eq.
  - intros Heq. rewrite <- Heq, Hp in Ho. unfold read in Ho. cbn in Ho.
    congruence.
Qed.

End sequences.

(** ** The order of a map's entries *)

(** Two encodings of one payload can be different bytes; each decodes
    to the payload. *)
Example pairsEncode_depends_on_order :
  ∃ b0 b1,
    standin.pairsEncode 0 (Values edge.two_entries) = inl b0
    ∧ standin.pairsEncode 1 (Values edge.two_entries) = inl b1
    ∧ b0 ≠ b1
    ∧ standin.pairsDecode b0 ∅ = (Values edge.two_entries, None)
    ∧ standin.pairsDecode b1 ∅ = (Values edge.two_entries, None).
Proof.
  eexists _, _. split; [vm_compute; reflexivity|].
  split; [vm_compute; reflexivity|].
  split; [discriminate|]. split; vm_compute; reflexivity.
Qed.

(** So saving an unchanged session twice can leave different bytes in
    its row. *)
Example save_twice_can_change_the_blob :
  ∃ σ1 σ2 b1 b2,
    save (H := standin.pairsGob) scenario.store edge.two_entries
         edge.reordering = Done None σ1
    ∧ save (H := standin.pairsGob) scenario.store edge.two_entries σ1
      = Done None σ2
    ∧ rows (cluster σ1) !! ("sessions", "GAYTEMZU") = Some (b1, 3600)
    ∧ rows (cluster σ2) !! ("sessions", "GAYTEMZU") = Some (b2, 3600)
    ∧ b1 ≠ b2.
Proof.
  eexists _, _, _, _. split; [vm_compute; reflexivity|].
  split; [vm_compute; reflexivity|].
  split; [vm_compute; reflexivity|].
  split; [vm_compute; reflexivity|discriminate].
Qed.
